(** * Workout recommender: a shallow embedding of [src/recommender.py]

    The engine of [WorkoutRecommender] is translated function by function.
    Python dictionaries that the code only reads are records; dictionaries
    that the code mutates through a shared reference (the [structure] of a
    weekly template) live in an explicit heap, so that aliasing between the
    stored template and the copy handed to the adapter is visible.
    Exceptions are an error monad, the [random] module is a stream of draws
    that is threaded through the selector. *)

From Stdlib Require Import ZArith QArith String Ascii List Permutation Sorted Lia Bool.
From stdpp Require Import base option list strings gmap.
Import ListNotations.

Close Scope Q_scope.
Local Open Scope string_scope.
Local Open Scope list_scope.

(** ** Python exceptions and results *)

Inductive exn : Type :=
| ValueError
| AttributeError
| TypeError
| UnboundLocalError.

Inductive result (A : Type) : Type :=
| Ok (a : A)
| Raise (e : exn).
Arguments Ok {A} a.
Arguments Raise {A} e.

#[global] Instance result_ret : MRet result := fun A a => Ok a.
#[global] Instance result_bind : MBind result := fun A B k r =>
  match r with
  | Ok a => k a
  | Raise e => Raise e
  end.

(** [x in xs] on a list of strings. *)
Definition str_in (x : string) (xs : list string) : bool :=
  existsb (String.eqb x) xs.

(** ** Data model *)

(** A range of the progressive parameters, [{"min": a, "max": b}]. *)
Record Range : Type := { rmin : Z; rmax : Z }.

(** Values found under [sets], [reps] and [rest_period]. *)
Inductive pyval : Type :=
| PInt (z : Z)
| PStr (s : string)
| PRange (r : Range).

(** Truth value of [d.get(k)]: an absent key gives [None]. *)
Definition truthy (v : option pyval) : bool :=
  match v with
  | None => false
  | Some (PInt z) => negb (z =? 0)%Z
  | Some (PStr s) => negb (String.eqb s "")
  | Some (PRange _) => true
  end.

(** A catalog record.  List-valued keys and [name] carry the default the
    code reads them with ([[]] and ['']); keys that are read with
    different defaults in different places are optional. *)
Record Exercise : Type := {
  name : string;
  exercise_type : option string;
  muscle_groups : list string;
  equipment_needed : list string;
  intensity : option string;
  difficulty : option string;
  injury_restrictions : list string;
  alternatives : option (list string);
  sets : option pyval;
  reps : option pyval;
  rest_period : option pyval
}.

(** A completed-workout record; [workout_type] and [w_intensity] are only
    tested for truth, so an absent key is the empty string.  Ratings are
    integers, as the 1-5 scale has them. *)
Record WorkoutRecord : Type := {
  completed : bool;
  workout_type : string;
  satisfaction : option Z;
  w_intensity : string
}.

(** What the history list can hold: [last_workout] is appended without any
    check, so besides dictionaries it may hold an object with no [get]. *)
Inductive pyobj : Type :=
| PyDict (r : WorkoutRecord)
| PyStr (s : string).

Record UserProfile : Type := {
  user_id : string;
  goal : string;
  fitness_level : string;
  injuries : list string;
  preferred_workouts : list string;
  equipment : list string;
  past_workouts : option (list pyobj)
}.

(** Values of a template structure: a workout type or a count. *)
Inductive sval : Type :=
| SStr (s : string)
| SInt (z : Z).

(** An insertion-ordered dictionary with string keys. *)
Definition pydict : Type := list (string * sval).

(** What the [structure] key of a template holds: a reference to a
    dictionary of the heap, or something that is not a dictionary. *)
Inductive struct_ref : Type :=
| Ref (l : nat)
| NotADict.

Record Template : Type := {
  t_goal : string;
  t_structure : struct_ref
}.

Record Engine : Type := {
  exercises : list Exercise;
  templates : list Template;
  heap : list pydict
}.

(** An exercise of a plan: the catalog record updated with four keys. *)
Record PlanExercise : Type := {
  base : Exercise;
  pe_sets : pyval;
  pe_reps : pyval;
  pe_rest_period : pyval;
  notes : string
}.

Record DayEntry : Type := {
  d_type : sval;
  d_exercises : list PlanExercise
}.

Record WorkoutPlan : Type := {
  wp_user_id : string;
  week_number : Z;
  days : list (string * DayEntry)
}.

#[global] Instance Range_eq_dec : EqDecision Range.
Proof. solve_decision. Defined.
#[global] Instance pyval_eq_dec : EqDecision pyval.
Proof. solve_decision. Defined.
#[global] Instance Exercise_eq_dec : EqDecision Exercise.
Proof. solve_decision. Defined.
#[global] Instance sval_eq_dec : EqDecision sval.
Proof. solve_decision. Defined.

(** ** Dictionary operations *)

Fixpoint dict_get (d : pydict) (k : string) : option sval :=
  match d with
  | [] => None
  | (k', v) :: d' => if String.eqb k k' then Some v else dict_get d' k
  end.

(** [d[k] = v]: an existing key keeps its position, a new key goes last. *)
Fixpoint dict_set (d : pydict) (k : string) (v : sval) : pydict :=
  match d with
  | [] => [(k, v)]
  | (k', v') :: d' =>
      if String.eqb k k' then (k', v) :: d' else (k', v') :: dict_set d' k v
  end.

Definition dict_has (d : pydict) (k : string) : bool :=
  match dict_get d k with Some _ => true | None => false end.

(** ** 4.1 Safety and availability filter *)

(** The inner loop of [_filter_exercises_by_injury]. *)
Definition conflict (injuries : list string) (e : Exercise) : bool :=
  existsb (fun restriction => str_in restriction injuries) (injury_restrictions e).

Definition _filter_exercises_by_injury (exs : list Exercise) (injuries : list string)
  : list Exercise :=
  List.filter (fun e => negb (conflict injuries e)) exs.

Definition no_equipment (e : Exercise) : bool :=
  match equipment_needed e with [] => true | _ => false end.

Definition has_equipment (equipment : list string) (e : Exercise) : bool :=
  existsb (fun eq => str_in eq equipment) (equipment_needed e).

Definition _filter_exercises_by_equipment (exs : list Exercise) (equipment : list string)
  : list Exercise :=
  List.filter (fun e => if no_equipment e then true else has_equipment equipment e) exs.

(** Lines 569-574 of [generate_workout_plan]: both passes and the
    fallback, which reads [self.exercises]. *)
Definition candidate_exercises (catalog : list Exercise) (injuries equipment : list string)
  : list Exercise :=
  let safe_exercises := _filter_exercises_by_injury catalog injuries in
  let available_exercises := _filter_exercises_by_equipment safe_exercises equipment in
  match available_exercises with
  | [] => List.filter no_equipment catalog
  | _ => available_exercises
  end.

(** ** 4.2 Preference scorer *)

(** The two history tables, [type_satisfaction] and
    [intensity_satisfaction]: a list of ratings per key. *)
Definition tables : Type := (gmap string (list Z) * gmap string (list Z))%type.

(** [if k not in d: d[k] = []] followed by [d[k].append(s)]. *)
Definition add_rating (k : string) (s : Z) (d : gmap string (list Z))
  : gmap string (list Z) :=
  <[k := default [] (d !! k) ++ [s]]> d.

(** One round of the loop over [past_workouts], for a dictionary. *)
Definition record_workout (acc : tables) (w : WorkoutRecord) : tables :=
  if completed w then
    let rating := default 3%Z (satisfaction w) in
    let ts := if String.eqb (workout_type w) "" then fst acc
              else add_rating (workout_type w) rating (fst acc) in
    let ins := if String.eqb (w_intensity w) "" then snd acc
               else add_rating (w_intensity w) rating (snd acc) in
    (ts, ins)
  else acc.

(** The loop itself: [workout.get] fails on an object that has no [get]. *)
Fixpoint analyse_history (past : list pyobj) (acc : tables) : result tables :=
  match past with
  | [] => Ok acc
  | PyDict w :: rest => analyse_history rest (record_workout acc w)
  | PyStr _ :: _ => Raise AttributeError
  end.

Definition sumZ (l : list Z) : Z := fold_right Z.add 0%Z l.

(** [sum(scores)/len(scores)], as an exact rational; scores are exact
    rationals as well (the source adds halves and units only). *)
Definition average (scores : list Z) : Q :=
  (inject_Z (sumZ scores) / inject_Z (Z.of_nat (length scores)))%Q.

(** [+2] from 4 up, [+1] from 3 up, for a key of the averaged table. *)
Definition satisfaction_bonus (avg : option Q) : Q :=
  match avg with
  | Some s => if Qle_bool 4 s then 2%Q else if Qle_bool 3 s then 1%Q else 0%Q
  | None => 0%Q
  end.

Definition opt_is (o : option string) (s : string) : bool :=
  match o with Some x => String.eqb x s | None => false end.

(** The body of the scoring loop; [score] is threaded as in the source. *)
Definition exercise_score (preferred_types : list string) (fitness_level : string)
    (avg_type_satisfaction avg_intensity_satisfaction : gmap string Q)
    (exercise : Exercise) : Q :=
  let score := 0%Q in
  let ex_type0 := default "" (exercise_type exercise) in
  let score :=
    if negb (String.eqb ex_type0 "") && str_in ex_type0 preferred_types
    then (score + 2)%Q else score in
  let score :=
    if opt_is (difficulty exercise) fitness_level then (score + 1)%Q else score in
  let score :=
    if truthy (sets exercise) && truthy (reps exercise)
    then (score + (1 # 2))%Q else score in
  let intensity_ := default "Moderate" (intensity exercise) in
  let score :=
    (score + satisfaction_bonus (avg_intensity_satisfaction !! intensity_))%Q in
  let score :=
    (score + satisfaction_bonus (exercise_type exercise ≫= fun t => avg_type_satisfaction !! t))%Q in
  if String.eqb fitness_level "Beginner" && String.eqb intensity_ "Low"
  then (score + 1)%Q
  else if String.eqb fitness_level "Intermediate" && String.eqb intensity_ "Moderate"
  then (score + 1)%Q
  else if String.eqb fitness_level "Advanced" && String.eqb intensity_ "High"
  then (score + 1)%Q
  else score.

(** The sort key [(score, name)] and the order of tuples on it. *)
Definition sort_key (x : Q * Exercise) : Q * string := (fst x, name (snd x)).

Definition key_lt (a b : Q * string) : bool :=
  match Qcompare (fst a) (fst b) with
  | Lt => true
  | Gt => false
  | Eq => String.ltb (snd a) (snd b)
  end.

(** [sorted(..., reverse=True)]: descending and stable, so an element goes
    in front of the first one that is not greater than it. *)
Fixpoint insert_desc (x : Q * Exercise) (l : list (Q * Exercise))
  : list (Q * Exercise) :=
  match l with
  | [] => [x]
  | y :: l' =>
      if key_lt (sort_key x) (sort_key y) then y :: insert_desc x l' else x :: l
  end.

Definition sorted_reverse (l : list (Q * Exercise)) : list (Q * Exercise) :=
  fold_right insert_desc [] l.

Definition _apply_user_preferences (exs : list Exercise)
    (preferred_types : list string) (fitness_level : string)
    (past : list pyobj) : result (list Exercise) :=
  match exs with
  | [] => Ok []
  | _ =>
      t ← analyse_history past (∅, ∅);
      let avg_type_satisfaction := average <$> fst t in
      let avg_intensity_satisfaction := average <$> snd t in
      let scored_exercises :=
        map (fun e => (exercise_score preferred_types fitness_level
                         avg_type_satisfaction avg_intensity_satisfaction e, e)) exs in
      Ok (map snd (sorted_reverse scored_exercises))
  end.

(** ** 4.3 Grouping and the muscle-group balancer *)

Definition _categorize_exercises (exs : list Exercise) : gmap string (list Exercise) :=
  fold_left (fun categorized e =>
               let k := default "Other" (exercise_type e) in
               <[k := default [] (categorized !! k) ++ [e]]> categorized)
            exs ∅.

(** The greedy pass; [muscle_group_count] of the source is never read and
    is left out. *)
Fixpoint greedy_pass (exs : list Exercise) (selected_muscles : gset string)
    (balanced_exercises : list Exercise) : list Exercise :=
  match exs with
  | [] => balanced_exercises
  | e :: rest =>
      if existsb (fun muscle => bool_decide (muscle ∈ selected_muscles)) (muscle_groups e)
      then greedy_pass rest selected_muscles balanced_exercises
      else greedy_pass rest (selected_muscles ∪ list_to_set (muscle_groups e))
                       (balanced_exercises ++ [e])
  end.

(** One group: the pass, then [ex not in balanced_exercises], which is
    equality of records. *)
Definition balance_group (exs : list Exercise) : list Exercise :=
  let balanced_exercises := greedy_pass exs ∅ [] in
  balanced_exercises
    ++ List.filter (fun ex => negb (bool_decide (ex ∈ balanced_exercises))) exs.

Definition _balance_muscle_groups (categorized : gmap string (list Exercise))
  : gmap string (list Exercise) :=
  balance_group <$> categorized.

(** ** Progressive parameters *)

Record Params : Type := { p_sets : Range; p_reps : Range; p_rest : Range }.

Definition base_params (fitness_level : string) : Params :=
  if String.eqb fitness_level "Intermediate" then
    {| p_sets := {| rmin := 3; rmax := 4 |};
       p_reps := {| rmin := 10; rmax := 15 |};
       p_rest := {| rmin := 45; rmax := 75 |} |}
  else if String.eqb fitness_level "Advanced" then
    {| p_sets := {| rmin := 3; rmax := 5 |};
       p_reps := {| rmin := 12; rmax := 20 |};
       p_rest := {| rmin := 30; rmax := 60 |} |}
  else
    {| p_sets := {| rmin := 2; rmax := 3 |};
       p_reps := {| rmin := 8; rmax := 12 |};
       p_rest := {| rmin := 60; rmax := 90 |} |}.

Definition _generate_progressive_parameters (fitness_level goal : string) : Params :=
  let params := base_params fitness_level in
  if String.eqb goal "Muscle Gain" then
    {| p_sets := {| rmin := rmin (p_sets params) + 1; rmax := rmax (p_sets params) |};
       p_reps := p_reps params;
       p_rest := {| rmin := rmin (p_rest params); rmax := rmax (p_rest params) + 15 |} |}
  else if String.eqb goal "Endurance" then
    {| p_sets := p_sets params;
       p_reps := {| rmin := rmin (p_reps params) + 4; rmax := rmax (p_reps params) + 4 |};
       p_rest := {| rmin := rmin (p_rest params); rmax := rmax (p_rest params) - 15 |} |}
  else params.

(** ** 4.4 Template resolver *)

Definition week_days : list string :=
  ["Monday"; "Tuesday"; "Wednesday"; "Thursday"; "Friday"; "Saturday"; "Sunday"].

Definition default_structure : pydict :=
  [("Monday", SStr "Strength"); ("Tuesday", SStr "Cardio"); ("Wednesday", SStr "Core");
   ("Thursday", SStr "Strength"); ("Friday", SStr "Cardio");
   ("Saturday", SStr "Flexibility"); ("Sunday", SStr "Rest")].

(** [for t in reversed(self.templates): if t.get("goal") == goal]. *)
Definition find_goal (ts : list Template) (goal : string) : option Template :=
  List.find (fun t => String.eqb (t_goal t) goal) (rev ts).

(** The dictionary a [structure] slot refers to, if it is one. *)
Definition deref (h : list pydict) (r : struct_ref) : option pydict :=
  match r with
  | Ref l => h !! l
  | NotADict => None
  end.

(** [t.copy()] copies the outer dictionary only: the copy is a new
    [Template] value whose [t_structure] is the same reference.  The
    default template is built afresh by every call, so its structure is a
    new heap cell.  [self.templates] is a list of dictionaries by its
    type here, so the two [isinstance] tests of the source always pass. *)
Definition _get_workout_template (ts : list Template) (h : list pydict) (goal : string)
  : Template * list pydict :=
  let d := length h in
  let h := h ++ [default_structure] in
  let default_template := {| t_goal := "General Fitness"; t_structure := Ref d |} in
  let template :=
    match find_goal ts goal with
    | Some t => t
    | None =>
        match find_goal ts "General Fitness" with
        | Some t => t
        | None => default_template
        end
    end in
  let template :=
    match deref h (t_structure template) with
    | Some structure =>
        if existsb (dict_has structure) ["Monday"; "Tuesday"; "Wednesday"]
        then template
        else {| t_goal := t_goal template; t_structure := Ref d |}
    | None => {| t_goal := t_goal template; t_structure := Ref d |}
    end in
  (template, h).

(** ** 4.5 Template adapter *)

Definition sval_is (v : sval) (s : string) : bool :=
  match v with SStr x => String.eqb x s | SInt _ => false end.

Definition rest_days (structure : pydict) : list string :=
  map fst (List.filter (fun kv => sval_is (snd kv) "Rest") structure).

Definition adapt_level (fitness_level : string) (structure : pydict) : pydict :=
  if String.eqb fitness_level "Beginner" then
    if (length (rest_days structure) <? 2)%nat
    then dict_set structure "Wednesday" (SStr "Rest")
    else structure
  else if String.eqb fitness_level "Advanced" then
    let rd := rest_days structure in
    if (1 <? length rd)%nat
    then fold_left (fun s day => dict_set s day (SStr "Active Recovery")) (removelast rd) structure
    else structure
  else structure.

(** One round of the loop over [structure.items()]. *)
Definition adapt_day (preferred_types : list string) (structure : pydict)
    (item : string * sval) : pydict :=
  let day := fst item in
  let workout_type := snd item in
  if sval_is workout_type "Rest" || sval_is workout_type "Active Recovery" then structure
  else if str_in "HIIT" preferred_types && str_in day ["Tuesday"; "Thursday"]
  then dict_set structure day (SStr "HIIT")
  else if str_in "Strength" preferred_types && str_in day ["Monday"; "Friday"]
  then dict_set structure day (SStr "Strength")
  else if str_in "Core" preferred_types && sval_is workout_type "Strength"
  then dict_set structure day (SStr "Core")
  else structure.

(** Every round writes the key it is visiting only, so the items seen by
    the loop are those of the dictionary as the loop starts. *)
Definition adapt_structure (preferred_types : list string) (fitness_level : string)
    (structure : pydict) : pydict :=
  let structure := adapt_level fitness_level structure in
  fold_left (adapt_day preferred_types) structure structure.

(** [structure = template.get("structure", {})] is the object the template
    refers to, and every assignment goes to that object: the heap cell is
    overwritten.  [adapted] is a copy of the outer dictionary with the same
    reference.  A value that is no dictionary has no [items].  The branch
    for [template is None] is left out: the resolver never returns
    [None]. *)
Definition _adapt_template_to_preferences (h : list pydict) (template : Template)
    (preferred_types : list string) (fitness_level : string)
  : result Template * list pydict :=
  match t_structure template with
  | Ref l =>
      match h !! l with
      | Some structure =>
          (Ok template, <[l := adapt_structure preferred_types fitness_level structure]> h)
      | None => (Raise AttributeError, h)
      end
  | NotADict => (Raise AttributeError, h)
  end.

(** ** 4.6 Day-schedule builder and optimizer *)

(** The loop of [_optimize_schedule]; [i] is the index of [enumerate]. *)
Fixpoint optimize_loop (schedule : list string) (i rest_added : Z)
    (optimized : list string) : list string :=
  match schedule with
  | [] => optimized
  | workout :: rest =>
      let optimized := optimized ++ [workout] in
      if ((i + 1 - rest_added) mod 3 =? 0)%Z
         && negb (str_in workout ["Flexibility"; "Mobility"])
      then optimize_loop rest (i + 1)%Z (rest_added + 1)%Z (optimized ++ ["Rest"])
      else optimize_loop rest (i + 1)%Z rest_added optimized
  end.

Definition _optimize_schedule (schedule : list string) : list string :=
  firstn 7 (optimize_loop schedule 0%Z 0%Z []).

(** The frequency form, expanded and padded to seven entries. *)
Definition expand_frequency (structure : pydict) : list string :=
  let schedule :=
    flat_map (fun kv => match snd kv with
                        | SInt count => repeat (fst kv) (Z.to_nat count)
                        | SStr _ => []
                        end) structure in
  schedule ++ repeat "Rest" (7 - length schedule).

Definition _create_day_schedule (structure : pydict) : list sval :=
  if existsb (dict_has structure) week_days
  then map (fun day => default (SStr "Rest") (dict_get structure day)) week_days
  else map SStr (_optimize_schedule (expand_frequency structure)).

(** ** The source of randomness

    [random.randint] and [random.sample] read a stream of draws, which is
    passed in and handed back.  Any selection the library can make is
    made by some stream. *)
Module Rng.

Definition t : Type := list nat.

Definition draw (g : t) : nat * t :=
  match g with
  | [] => (0, [])
  | d :: g' => (d, g')
  end.

(** [random.randint(lo, hi)], both ends included. *)
Definition randint (lo hi : nat) (g : t) : nat * t :=
  let '(d, g') := draw g in (lo + d mod (hi - lo + 1), g').

(** [random.sample(population, k)]: [k] positions drawn without
    replacement. *)
Fixpoint sample {A : Type} (k : nat) (population : list A) (g : t) : list A * t :=
  match k with
  | 0 => ([], g)
  | S k' =>
      match population with
      | [] => ([], g)
      | x :: _ =>
          let '(d, g1) := draw g in
          let i := d mod length population in
          let '(others, g2) := sample k' (delete i population) g1 in
          (default x (population !! i) :: others, g2)
      end
  end.

End Rng.

(** ** 4.7 Exercise selector *)

Definition lower_ascii (c : ascii) : ascii :=
  let n := nat_of_ascii c in
  if (65 <=? n)%nat && (n <=? 90)%nat then ascii_of_nat (n + 32) else c.

(** [str.lower], on the ASCII letters. *)
Fixpoint lower (s : string) : string :=
  match s with
  | EmptyString => EmptyString
  | String c s' => String (lower_ascii c) (lower s')
  end.

Definition type_mapping (workout_type : string) : list string :=
  if String.eqb workout_type "Strength" then ["Strength"; "Resistance"]
  else if String.eqb workout_type "HIIT" then ["HIIT"; "Cardio"]
  else if String.eqb workout_type "Cardio" then ["Cardio"; "HIIT"]
  else if String.eqb workout_type "Core" then ["Strength"]
  else if String.eqb workout_type "Flexibility" then ["Flexibility"; "Mobility"]
  else if String.eqb workout_type "Mobility" then ["Mobility"; "Flexibility"]
  else [workout_type].

Definition _generate_exercise_notes (exercise : Exercise) (injuries : list string) : string :=
  let alternative :=
    String.append "Alternative: "
      (String.concat ", " (default ["None"] (alternatives exercise))) in
  let notes :=
    map (fun _ => alternative)
        (List.filter (fun injury => str_in injury (injury_restrictions exercise)) injuries)
    ++ (if opt_is (intensity exercise) "High" then ["Monitor form carefully"] else []) in
  match notes with
  | [] => "Perform with proper form"
  | _ => String.concat "; " notes
  end.

(** [exercise.get(k, params.get(k', d))]: the value under the key of
    [params] is the range dictionary itself. *)
Definition enhance (params : Params) (injuries : list string) (exercise : Exercise)
  : PlanExercise :=
  {| base := exercise;
     pe_sets := default (PRange (p_sets params)) (sets exercise);
     pe_reps := default (PRange (p_reps params)) (reps exercise);
     pe_rest_period := default (PRange (p_rest params)) (rest_period exercise);
     notes := _generate_exercise_notes exercise injuries |}.

Definition matches_type (workout_type : string) (ex : Exercise) : bool :=
  let ex_type := default "" (exercise_type ex) in
  str_in (lower ex_type) (map lower (type_mapping workout_type))
  && negb (String.eqb workout_type "Core" && negb (str_in "Core" (muscle_groups ex))).

Definition _select_exercises (available_exercises : list Exercise) (workout_type : string)
    (params : Params) (injuries : list string) (g : Rng.t)
  : list PlanExercise * Rng.t :=
  match available_exercises with
  | [] => ([], g)
  | _ =>
      let type_exercises := List.filter (matches_type workout_type) available_exercises in
      match type_exercises with
      | [] => ([], g)
      | _ =>
          let '(n, g1) := Rng.randint 2 3 g in
          let num_exercises := Nat.min n (length type_exercises) in
          let '(selected, g2) := Rng.sample num_exercises type_exercises g1 in
          (map (enhance params injuries) selected, g2)
      end
  end.

(** One round of the loop over the seven days. *)
Definition plan_day (exercises_by_type : gmap string (list Exercise)) (params : Params)
    (injuries : list string) (workout_type : sval) (g : Rng.t) : DayEntry * Rng.t :=
  match workout_type with
  | SStr w =>
      if String.eqb w "Rest" then ({| d_type := SStr "Rest"; d_exercises := [] |}, g)
      else if String.eqb w "Active Recovery"
      then ({| d_type := SStr "Active Recovery"; d_exercises := [] |}, g)
      else
        let available_for_type := default [] (exercises_by_type !! w) in
        let '(selected, g') := _select_exercises available_for_type w params injuries g in
        ({| d_type := SStr w; d_exercises := selected |}, g')
  | SInt z => ({| d_type := SInt z; d_exercises := [] |}, g)
  end.

Fixpoint plan_days (exercises_by_type : gmap string (list Exercise)) (params : Params)
    (injuries : list string) (day_schedule : list sval) (i : nat) (ds : list string)
    (g : Rng.t) : list (string * DayEntry) * Rng.t :=
  match ds with
  | [] => ([], g)
  | day :: ds' =>
      let workout_type := default (SStr "Rest") (day_schedule !! i) in
      let '(entry, g1) := plan_day exercises_by_type params injuries workout_type g in
      let '(others, g2) := plan_days exercises_by_type params injuries day_schedule (S i) ds' g1 in
      ((day, entry) :: others, g2)
  end.

Definition _generate_weekly_plan (exercises_by_type : gmap string (list Exercise))
    (structure : pydict) (params : Params) (injuries : list string) (g : Rng.t)
  : list (string * DayEntry) * Rng.t :=
  plan_days exercises_by_type params injuries (_create_day_schedule structure) 0 week_days g.

(** ** 4.8 Plan assembler *)

(** The results of the guarded block, as the local variables it binds. *)
Record Stages : Type := {
  balanced_exercises : gmap string (list Exercise);
  template : Template;
  adapted_template : option Template
}.

(** The body of [try], lines 561-594.  The heap is handed back with the
    result, whatever the result is. *)
Definition guarded_stages (eng : Engine) (user : UserProfile) (past : list pyobj)
  : result Stages * list pydict :=
  let available_exercises :=
    candidate_exercises (exercises eng) (injuries user) (equipment user) in
  match _apply_user_preferences available_exercises (preferred_workouts user)
          (fitness_level user) past with
  | Raise e => (Raise e, heap eng)
  | Ok preferred_exercises =>
      let categorized_exercises := _categorize_exercises preferred_exercises in
      let balanced := _balance_muscle_groups categorized_exercises in
      let '(tpl, h1) := _get_workout_template (templates eng) (heap eng) (goal user) in
      match _adapt_template_to_preferences h1 tpl (preferred_workouts user)
              (fitness_level user) with
      | (Ok adapted, h2) =>
          (Ok {| balanced_exercises := balanced; template := tpl;
                 adapted_template := Some adapted |}, h2)
      | (Raise e, h2) => (Raise e, h2)
      end
  end.

(** [except AttributeError]: [template] and [balanced_exercises] are
    bound, [adapted_template] is not. *)
Definition attribute_fallback (eng : Engine) (h : list pydict) : Stages * list pydict :=
  let '(tpl, h1) := _get_workout_template (templates eng) h "General Fitness" in
  ({| balanced_exercises := _categorize_exercises (exercises eng); template := tpl;
      adapted_template := None |}, h1).

(** Lines 604-622: reading a local that was never bound raises
    [UnboundLocalError]. *)
Definition assemble (user : UserProfile) (h : list pydict) (s : Stages) (g : Rng.t)
  : result WorkoutPlan * Rng.t :=
  let workout_params :=
    _generate_progressive_parameters (fitness_level user) (goal user) in
  match adapted_template s with
  | None => (Raise UnboundLocalError, g)
  | Some adapted =>
      let structure := default [] (deref h (t_structure adapted)) in
      let '(weekly_plan, g') :=
        _generate_weekly_plan (balanced_exercises s) structure workout_params
          (injuries user) g in
      (Ok {| wp_user_id := user_id user; week_number := 1; days := weekly_plan |}, g')
  end.

Definition with_heap (eng : Engine) (h : list pydict) : Engine :=
  {| exercises := exercises eng; templates := templates eng; heap := h |}.

Definition with_history (user : UserProfile) (past : list pyobj) : UserProfile :=
  {| user_id := user_id user; goal := goal user; fitness_level := fitness_level user;
     injuries := injuries user; preferred_workouts := preferred_workouts user;
     equipment := equipment user; past_workouts := Some past |}.

(** The outcome of a call: what it returns or raises, and the engine, the
    user and the random stream as the call leaves them. *)
Record Outcome : Type := {
  returned : result WorkoutPlan;
  engine_after : Engine;
  user_after : UserProfile;
  rng_after : Rng.t
}.

Definition generate_workout_plan (eng : Engine) (user : UserProfile)
    (last_workout : option pyobj) (g : Rng.t) : Outcome :=
  match last_workout with
  | None =>
      {| returned := Raise ValueError; engine_after := eng; user_after := user;
         rng_after := g |}
  | Some lw =>
      match past_workouts user with
      | None =>
          (* [None.append]: the attribute exists and holds [None] *)
          {| returned := Raise AttributeError; engine_after := eng; user_after := user;
             rng_after := g |}
      | Some past =>
          let past := past ++ [lw] in
          let user := with_history user past in
          match guarded_stages eng user past with
          | (Ok s, h) =>
              let '(r, g') := assemble user h s g in
              {| returned := r; engine_after := with_heap eng h; user_after := user;
                 rng_after := g' |}
          | (Raise AttributeError, h) =>
              let '(s, h') := attribute_fallback eng h in
              let '(r, g') := assemble user h' s g in
              {| returned := r; engine_after := with_heap eng h'; user_after := user;
                 rng_after := g' |}
          | (Raise e, h) =>
              {| returned := Raise e; engine_after := with_heap eng h; user_after := user;
                 rng_after := g |}
          end
      end
  end.

(** ** Built-in data *)

Definition mk_exercise (n ty : string) (muscles equip : list string)
    (inten diff : string) (restr alts : list string) : Exercise :=
  {| name := n; exercise_type := Some ty; muscle_groups := muscles;
     equipment_needed := equip; intensity := Some inten; difficulty := Some diff;
     injury_restrictions := restr; alternatives := Some alts;
     sets := None; reps := None; rest_period := None |}.

(** [_get_default_exercises]. *)
Definition default_exercises : list Exercise :=
  [ mk_exercise "Dumbbell Thrusters" "Strength" ["Legs"; "Shoulders"] ["Dumbbells"]
      "High" "Intermediate" ["Shoulder Issue"] ["Bodyweight Squats"];
    mk_exercise "Step-Ups" "Strength" ["Legs"] ["Step"]
      "Moderate" "Beginner" ["Knee Injury"] ["Bodyweight Squats"];
    mk_exercise "Resistance Band Rows" "Strength" ["Back"] ["Resistance Bands"]
      "Moderate" "Beginner" ["Shoulder Issue"] ["Seated Rows"];
    mk_exercise "Stationary Bike" "Cardio" ["Legs"] ["Stationary Bike"]
      "Moderate" "Beginner" ["Knee Injury"] ["Swimming"];
    mk_exercise "Swimming" "Cardio" ["Full Body"] ["Pool"]
      "Moderate" "Beginner" [] ["Water Aerobics"];
    mk_exercise "Bodyweight Squats" "Strength" ["Legs"] []
      "Low" "Beginner" [] ["Wall Sit"];
    mk_exercise "Plank" "Core" ["Core"] []
      "Low" "Beginner" [] ["Side Plank"];
    mk_exercise "Elliptical" "Cardio" ["Full Body"] ["Elliptical"]
      "Moderate" "Beginner" ["Knee Injury"] ["Rowing Machine"] ].

(** The engine [__init__] builds when no data file is found: the default
    catalog and the one default template of [_load_templates]. *)
Definition default_engine : Engine :=
  {| exercises := default_exercises;
     templates := [ {| t_goal := "General Fitness"; t_structure := Ref 0 |} ];
     heap := [default_structure] |}.

(** What the stored templates look like from outside: each goal with the
    contents of the structure it refers to. *)
Definition stored_templates (eng : Engine) : list (string * option pydict) :=
  map (fun t => (t_goal t, deref (heap eng) (t_structure t))) (templates eng).

(** ** [utils.calculate_similarity]

    The lists hold tags; the quotient is an exact rational. *)
Definition calculate_similarity (list1 list2 : list string) : Q :=
  match list1, list2 with
  | [], _ => 0%Q
  | _, [] => 0%Q
  | _, _ =>
      let set1 : gset string := list_to_set list1 in
      let set2 : gset string := list_to_set list2 in
      let intersection := size (set1 ∩ set2) in
      let union := size (set1 ∪ set2) in
      if (0 <? union)%nat
      then (inject_Z (Z.of_nat intersection) / inject_Z (Z.of_nat union))%Q
      else 0%Q
  end.

(** ** Loading the data files

    What [load_json_data] hands over is a JSON value, or nothing when it
    raises; both loaders catch every exception. *)
#[local] Unset Elimination Schemes.
Inductive json : Type :=
| JNull
| JBool (b : bool)
| JNum (q : Q)
| JStr (s : string)
| JList (l : list json)
| JDict (d : list (string * json)).
#[local] Set Elimination Schemes.

(** [not data] is the negation of this. *)
Definition json_truthy (data : json) : bool :=
  match data with
  | JNull => false
  | JBool b => b
  | JNum q => negb (Qeq_bool q 0)
  | JStr s => negb (String.eqb s "")
  | JList l => match l with [] => false | _ => true end
  | JDict d => match d with [] => false | _ => true end
  end.

Fixpoint jdict_get (d : list (string * json)) (k : string) : option json :=
  match d with
  | [] => None
  | (k', v) :: d' => if String.eqb k k' then Some v else jdict_get d' k
  end.

Fixpoint jdict_set (d : list (string * json)) (k : string) (v : json)
  : list (string * json) :=
  match d with
  | [] => [(k, v)]
  | (k', v') :: d' =>
      if String.eqb k k' then (k', v) :: d' else (k', v') :: jdict_set d' k v
  end.

Definition jdict_has (d : list (string * json)) (k : string) : bool :=
  match jdict_get d k with Some _ => true | None => false end.

Definition default_templates_json : list json :=
  [ JDict [ ("goal", JStr "General Fitness");
            ("structure",
             JDict [ ("Monday", JStr "Strength"); ("Tuesday", JStr "Cardio");
                     ("Wednesday", JStr "Core"); ("Thursday", JStr "Strength");
                     ("Friday", JStr "Cardio"); ("Saturday", JStr "Flexibility");
                     ("Sunday", JStr "Rest") ]) ] ].

(** [{"goal": key, **value}]: only a mapping can be unpacked. *)
Definition with_goal (key : string) (value : json) : option json :=
  match value with
  | JDict items =>
      Some (JDict (fold_left (fun d kv => jdict_set d (fst kv) (snd kv)) items
                     [("goal", JStr key)]))
  | _ => None
  end.

(** The list comprehension over [data.items()]; one failure aborts it. *)
Fixpoint goal_comprehension (items : list (string * json)) : option (list json) :=
  match items with
  | [] => Some []
  | (key, value) :: rest =>
      match with_goal key value with
      | Some t =>
          match goal_comprehension rest with
          | Some ts => Some (t :: ts)
          | None => None
          end
      | None => None
      end
  end.

(** [isinstance(template, dict) and "goal" in template]. *)
Definition is_template (t : json) : bool :=
  match t with
  | JDict items => jdict_has items "goal"
  | _ => false
  end.

Definition _load_templates (loaded : option json) : list json :=
  match loaded with
  | None => default_templates_json
  | Some data =>
      if negb (json_truthy data) then default_templates_json
      else
        match data with
        | JDict items =>
            if jdict_has items "goal" then [data]
            else
              match goal_comprehension items with
              | Some ts => ts
              | None => default_templates_json
              end
        | JList items =>
            match List.filter is_template items with
            | [] => default_templates_json
            | valid_templates => valid_templates
            end
        | _ => default_templates_json
        end
  end.

(** A catalog record as the JSON dictionary it is loaded from. *)
Definition exercise_json (e : Exercise) : json :=
  let strs := fun l => JList (map JStr l) in
  let opt := fun (k : string) (o : option json) =>
               match o with Some v => [(k, v)] | None => [] end in
  let pv := fun v => match v with
                     | PInt z => JNum (inject_Z z)
                     | PStr s => JStr s
                     | PRange r => JDict [("min", JNum (inject_Z (rmin r)));
                                          ("max", JNum (inject_Z (rmax r)))]
                     end in
  JDict ([("name", JStr (name e))]
         ++ opt "exercise_type" (JStr <$> exercise_type e)
         ++ [("muscle_groups", strs (muscle_groups e));
             ("equipment_needed", strs (equipment_needed e))]
         ++ opt "intensity" (JStr <$> intensity e)
         ++ opt "difficulty" (JStr <$> difficulty e)
         ++ [("injury_restrictions", strs (injury_restrictions e))]
         ++ opt "alternatives" (strs <$> alternatives e)
         ++ opt "sets" (pv <$> sets e)
         ++ opt "reps" (pv <$> reps e)
         ++ opt "rest_period" (pv <$> rest_period e)).

Definition default_exercises_json : list json := map exercise_json default_exercises.

Definition _load_exercises (loaded : option json) : list json :=
  match loaded with
  | None => default_exercises_json
  | Some data =>
      if negb (json_truthy data) then default_exercises_json
      else
        let exs :=
          match data with
          | JDict items =>
              match jdict_get items "workouts" with
              | Some workouts => workouts
              | None => data
              end
          | _ => data
          end in
        match exs with
        | JList l => l
        | _ => [exs]
        end
  end.

(** * Definitions used by the statements

    Position-wise and rule-wise readings of the operations, and the
    concrete engines, users and records the statements are evaluated on. *)

(** A catalog with one bodyweight exercise that is restricted for a knee
    injury and one safe exercise that needs a barbell. *)
Definition jump_squats : Exercise :=
  mk_exercise "Jump Squats" "Strength" ["Legs"] [] "High" "Intermediate"
    ["Knee Injury"] ["Wall Sit"].

Definition barbell_squat : Exercise :=
  mk_exercise "Barbell Squat" "Strength" ["Legs"] ["Barbell"] "High" "Intermediate"
    [] ["Bodyweight Squats"].

Definition knee_engine : Engine :=
  {| exercises := [jump_squats; barbell_squat];
     templates := templates default_engine;
     heap := heap default_engine |}.

Definition knee_user : UserProfile :=
  {| user_id := "U1"; goal := "General Fitness"; fitness_level := "Intermediate";
     injuries := ["Knee Injury"]; preferred_workouts := ["Strength"];
     equipment := ["Dumbbells"]; past_workouts := Some [] |}.

Definition cardio_record : pyobj :=
  PyDict {| completed := true; workout_type := "Cardio"; satisfaction := Some 4%Z;
            w_intensity := "Moderate" |}.

Definition beginner_user : UserProfile :=
  {| user_id := "U2"; goal := "General Fitness"; fitness_level := "Beginner";
     injuries := []; preferred_workouts := []; equipment := [];
     past_workouts := Some [] |}.

Definition no_history_user : UserProfile :=
  {| user_id := "U3"; goal := "General Fitness"; fitness_level := "Beginner";
     injuries := []; preferred_workouts := []; equipment := [];
     past_workouts := None |}.

Definition beginner_plan_outcome : Outcome :=
  generate_workout_plan default_engine beginner_user (Some cardio_record) [].

Definition squats_in_plan : PlanExercise :=
  enhance (_generate_progressive_parameters "Beginner" "General Fitness") []
    (mk_exercise "Bodyweight Squats" "Strength" ["Legs"] [] "Low" "Beginner" [] ["Wall Sit"]).

Definition beginner_plan : WorkoutPlan :=
  Eval vm_compute in
    match returned beginner_plan_outcome with
    | Ok p => p
    | Raise _ => {| wp_user_id := ""; week_number := 0; days := [] |}
    end.

Definition entry_of (p : WorkoutPlan) (day : string) : DayEntry :=
  match List.find (fun d => String.eqb (fst d) day) (days p) with
  | Some d => snd d
  | None => {| d_type := SStr "Rest"; d_exercises := [] |}
  end.

Definition light (workout : string) : bool := str_in workout ["Flexibility"; "Mobility"].

(** The number of Rest entries inserted once the entries at the 1-based
    positions [1..p] of [schedule] have been walked. *)
Fixpoint rests_so_far (schedule : list string) (p : nat) : Z :=
  match p with
  | 0 => 0%Z
  | S q =>
      let r := rests_so_far schedule q in
      match schedule !! q with
      | Some workout =>
          if ((Z.of_nat (S q) - r) mod 3 =? 0)%Z && negb (light workout)
          then (r + 1)%Z else r
      | None => r
      end
  end.

(** Is a Rest inserted after [workout], the entry at 1-based position [p]? *)
Definition rest_after (schedule : list string) (p : nat) (workout : string) : bool :=
  ((Z.of_nat p - rests_so_far schedule (p - 1)) mod 3 =? 0)%Z && negb (light workout).

(** The schedule with a Rest after every entry that asks for one. *)
Definition with_rests (schedule : list string) : list string :=
  concat (imap (fun i workout =>
                  if rest_after schedule (S i) workout then [workout; "Rest"]
                  else [workout]) schedule).

Definition claimed_by (selected_muscles : gset string) (e : Exercise) : bool :=
  existsb (fun muscle => bool_decide (muscle ∈ selected_muscles)) (muscle_groups e).

(** The exercises the greedy pass accepts, without the accumulator. *)
Fixpoint greedy (exs : list Exercise) (selected_muscles : gset string) : list Exercise :=
  match exs with
  | [] => []
  | e :: rest =>
      if claimed_by selected_muscles e then greedy rest selected_muscles
      else e :: greedy rest (selected_muscles ∪ list_to_set (muscle_groups e))
  end.

(** The muscle groups of a list of exercises. *)
Definition muscles_of (l : list Exercise) : gset string :=
  list_to_set (concat (map muscle_groups l)).

Definition strength_group : list Exercise :=
  List.filter (fun e => opt_is (exercise_type e) "Strength") default_exercises.


(** The ratings (3 where none is recorded) of the completed records whose
    [key] is [k]; a record with an empty key counts for no key. *)
Definition ratings_of (key : WorkoutRecord -> string) (records : list WorkoutRecord)
    (k : string) : list Z :=
  map (fun w => default 3%Z (satisfaction w))
      (List.filter (fun w => completed w && negb (String.eqb (key w) "")
                             && String.eqb (key w) k) records).




Definition nonempty (l : list Z) : option (list Z) :=
  match l with [] => None | _ => Some l end.

(** A table agrees with the records seen so far. *)
Definition table_ok (key : WorkoutRecord -> string) (seen : list WorkoutRecord)
    (d : gmap string (list Z)) : Prop :=
  forall k, d !! k = nonempty (ratings_of key seen k).


(** A range with a positive lower end that does not exceed the upper end. *)
Definition range_ok (r : Range) : Prop := (0 < rmin r <= rmax r)%Z.

(** The key [_categorize_exercises] files an exercise under. *)
Definition category (e : Exercise) : string := default "Other" (exercise_type e).

(** A list of exercises as the value of a dictionary key: the key exists
    only once something was appended under it. *)
Definition group_of (l : list Exercise) : option (list Exercise) :=
  match l with [] => None | _ => Some l end.

(** Two exercises that share no muscle group. *)
Definition muscle_disjoint (a b : Exercise) : Prop :=
  forall m, In m (muscle_groups a) -> ~ In m (muscle_groups b).

(** What the preference loop of the adapter makes of one day: Rest and
    Active Recovery stay, the first rule that applies retypes the day. *)
Definition retype (preferred_types : list string) (item : string * sval) : string * sval :=
  let day := fst item in
  let workout_type := snd item in
  (day,
   if sval_is workout_type "Rest" || sval_is workout_type "Active Recovery"
   then workout_type
   else if str_in "HIIT" preferred_types && str_in day ["Tuesday"; "Thursday"]
   then SStr "HIIT"
   else if str_in "Strength" preferred_types && str_in day ["Monday"; "Friday"]
   then SStr "Strength"
   else if str_in "Core" preferred_types && sval_is workout_type "Strength"
   then SStr "Core"
   else workout_type).

(** * Properties *)

(** ** Shapes of the results *)

Lemma str_in_In (x : string) (xs : list string) : str_in x xs = true <-> In x xs.
Proof.
  unfold str_in. rewrite existsb_exists. split.
  - intros [y [Hy Heq]]. apply String.eqb_eq in Heq. now subst.
  - intros H. exists x. split; [assumption | apply String.eqb_refl].
Qed.

Lemma conflict_spec (injuries : list string) (e : Exercise) :
  conflict injuries e = true <->
  exists r, In r (injury_restrictions e) /\ In r injuries.
Proof.
  unfold conflict. rewrite existsb_exists.
  split; intros [r [H1 H2]]; exists r; split; try assumption; now apply str_in_In.
Qed.

(** The random stream decides nothing when a single exercise matches. *)
Lemma select_single (x : Exercise) (w : string) (params : Params)
    (injuries : list string) (g : Rng.t) :
  matches_type w x = true ->
  fst (_select_exercises [x] w params injuries g) = [enhance params injuries x].
Proof.
  intros Hm. unfold _select_exercises. simpl. rewrite Hm.
  unfold Rng.randint. destruct (Rng.draw g) as [d g1]. simpl.
  destruct (Rng.draw g1) as [d1 g2]. reflexivity.
Qed.

Lemma plan_days_cons ebt params injuries sched i day ds g :
  fst (plan_days ebt params injuries sched i (day :: ds) g) =
  (day, fst (plan_day ebt params injuries (default (SStr "Rest") (sched !! i)) g))
    :: fst (plan_days ebt params injuries sched (S i) ds
              (snd (plan_day ebt params injuries (default (SStr "Rest") (sched !! i)) g))).
Proof.
  simpl. destruct (plan_day _ _ _ _ g) as [entry g1]. simpl.
  destruct (plan_days _ _ _ _ (S i) ds g1) as [others g2]. reflexivity.
Qed.


(** What a call returns once the history has been extended. *)
Lemma returned_after_stages eng user lw past g :
  past_workouts user = Some past ->
  returned (generate_workout_plan eng user (Some lw) g) =
  let user' := with_history user (past ++ [lw]) in
  match guarded_stages eng user' (past ++ [lw]) with
  | (Ok s, h) => fst (assemble user' h s g)
  | (Raise AttributeError, h) =>
      fst (assemble user' (snd (attribute_fallback eng h)) (fst (attribute_fallback eng h)) g)
  | (Raise e, _) => Raise e
  end.
Proof.
  intros Hp. unfold generate_workout_plan. rewrite Hp. cbv zeta.
  destruct (guarded_stages _ _ _) as [[s|e] h].
  - destruct (assemble _ h s g) as [r g']. reflexivity.
  - destruct e; reflexivity.
Qed.

Lemma assemble_ok user h s g plan :
  fst (assemble user h s g) = Ok plan ->
  exists adapted,
    adapted_template s = Some adapted /\
    days plan =
      fst (_generate_weekly_plan (balanced_exercises s)
             (default [] (deref h (t_structure adapted)))
             (_generate_progressive_parameters (fitness_level user) (goal user))
             (injuries user) g).
Proof.
  unfold assemble. destruct (adapted_template s) as [a|]; [|discriminate].
  destruct (_generate_weekly_plan _ _ _ _ g) as [wp g'] eqn:Hw. simpl.
  intros [= <-]. exists a. split; [reflexivity|]. now rewrite Hw.
Qed.

(** The fallback leaves [adapted_template] unbound, so the assembler
    stops at the first read of it. *)
Lemma assemble_after_fallback eng user h g :
  fst (assemble user (snd (attribute_fallback eng h)) (fst (attribute_fallback eng h)) g)
  = Raise UnboundLocalError.
Proof.
  unfold attribute_fallback.
  destruct (_get_workout_template _ h _) as [tpl h1]. reflexivity.
Qed.

(** Whenever the guarded block raises [AttributeError] the call ends in
    [UnboundLocalError]: no input makes the recovery return a plan. *)
Lemma attribute_failure_never_recovers eng user lw past g :
  past_workouts user = Some past ->
  fst (guarded_stages eng (with_history user (past ++ [lw])) (past ++ [lw]))
    = Raise AttributeError ->
  returned (generate_workout_plan eng user (Some lw) g) = Raise UnboundLocalError.
Proof.
  intros Hp Hs. rewrite (returned_after_stages _ _ _ _ _ Hp). cbv zeta.
  destruct (guarded_stages _ _ _) as [r h]. simpl in Hs. subst r.
  apply assemble_after_fallback.
Qed.

(** Any other failure of the guarded block is raised again as it is. *)
Lemma other_failure_propagates eng user lw past g e :
  past_workouts user = Some past ->
  e <> AttributeError ->
  fst (guarded_stages eng (with_history user (past ++ [lw])) (past ++ [lw])) = Raise e ->
  returned (generate_workout_plan eng user (Some lw) g) = Raise e.
Proof.
  intros Hp Hne Hs. rewrite (returned_after_stages _ _ _ _ _ Hp). cbv zeta.
  destruct (guarded_stages _ _ _) as [r h]. simpl in Hs. subst r.
  destruct e; congruence.
Qed.

Lemma filter_nil_iff {A : Type} (f : A -> bool) (l : list A) :
  List.filter f l = [] <-> forall x, In x l -> f x = false.
Proof.
  induction l as [|a l IH]; simpl.
  - split; [intros _ x [] | reflexivity].
  - destruct (f a) eqn:Ha; split.
    + discriminate.
    + intros H. specialize (H a (or_introl eq_refl)). congruence.
    + intros H x [<-|Hx]; [assumption | now apply IH].
    + intros H. apply IH. intros x Hx. apply H. now right.
Qed.

Lemma engine_after_heap eng user lw past g :
  past_workouts user = Some past ->
  engine_after (generate_workout_plan eng user (Some lw) g) =
  let user' := with_history user (past ++ [lw]) in
  match guarded_stages eng user' (past ++ [lw]) with
  | (Raise AttributeError, h) => with_heap eng (snd (attribute_fallback eng h))
  | (_, h) => with_heap eng h
  end.
Proof.
  intros Hp. unfold generate_workout_plan. rewrite Hp. cbv zeta.
  destruct (guarded_stages _ _ _) as [[s|e] h].
  - destruct (assemble _ h s g) as [r g']. reflexivity.
  - destruct e; reflexivity.
Qed.

(** ** 4.1: what the fallback selects *)

(** When the equipment pass leaves nothing, no injury-safe exercise is
    free of equipment, and what the fallback takes from the whole catalog
    are exercises the injury pass had removed. *)
Lemma fallback_takes_removed_exercises (catalog : list Exercise)
    (injuries equipment : list string) :
  _filter_exercises_by_equipment (_filter_exercises_by_injury catalog injuries) equipment = [] ->
  candidate_exercises catalog injuries equipment = List.filter no_equipment catalog
  /\ List.filter no_equipment (_filter_exercises_by_injury catalog injuries) = []
  /\ forall e, In e (candidate_exercises catalog injuries equipment) ->
               conflict injuries e = true.
Proof.
  intros Hnil.
  assert (Hc : candidate_exercises catalog injuries equipment
               = List.filter no_equipment catalog).
  { unfold candidate_exercises. now rewrite Hnil. }
  unfold _filter_exercises_by_equipment in Hnil.
  rewrite filter_nil_iff in Hnil.
  split; [exact Hc|]. split.
  - apply filter_nil_iff. intros x Hx. specialize (Hnil x Hx).
    destruct (no_equipment x); [discriminate | reflexivity].
  - intros e. rewrite Hc. rewrite filter_In. intros [Hin Hne].
    destruct (conflict injuries e) eqn:Hcf; [reflexivity|].
    assert (Hs : In e (_filter_exercises_by_injury catalog injuries)).
    { unfold _filter_exercises_by_injury. apply filter_In. now rewrite Hcf. }
    specialize (Hnil e Hs). rewrite Hne in Hnil. discriminate.
Qed.

(** ** 4.8: the precondition on the last workout *)

(** C6: called with [last_workout = None], [generate_workout_plan] raises
    [ValueError], returns no plan, and leaves the user (its
    [past_workouts] with it) and the engine as they were. *)
Theorem C6_missing_last_workout (eng : Engine) (user : UserProfile) (g : Rng.t) :
  let o := generate_workout_plan eng user None g in
  returned o = Raise ValueError
  /\ (forall plan, returned o <> Ok plan)
  /\ past_workouts (user_after o) = past_workouts user
  /\ user_after o = user
  /\ engine_after o = eng.
Proof.
  simpl. repeat split. intros plan. discriminate.
Qed.

(** ** 4.1: the fallback on the knee catalog *)

(** C2, evaluated on the knee catalog: the equipment pass leaves nothing,
    the injury-safe set restricted to exercises without equipment is
    empty, and yet the candidates handed on are the bodyweight exercises
    of the whole catalog, here the one the injury pass had removed. *)
Theorem C2_fallback_reads_whole_catalog :
  let catalog := exercises knee_engine in
  let safe := _filter_exercises_by_injury catalog (injuries knee_user) in
  _filter_exercises_by_equipment safe (equipment knee_user) = []
  /\ List.filter no_equipment safe = []
  /\ candidate_exercises catalog (injuries knee_user) (equipment knee_user) = [jump_squats]
  /\ candidate_exercises catalog (injuries knee_user) (equipment knee_user)
     <> List.filter no_equipment safe.
Proof.
  cbv zeta. repeat split; try reflexivity. discriminate.
Qed.

Lemma plan_day_single ebt params injuries w x g :
  String.eqb w "Rest" = false -> String.eqb w "Active Recovery" = false ->
  ebt !! w = Some [x] -> matches_type w x = true ->
  fst (plan_day ebt params injuries (SStr w) g)
  = {| d_type := SStr w; d_exercises := [enhance params injuries x] |}.
Proof.
  intros H1 H2 H3 H4. unfold plan_day. rewrite H1, H2, H3. simpl default.
  pose proof (select_single x w params injuries g H4) as Hs.
  destruct (_select_exercises [x] w params injuries g) as [sel g']. simpl in *.
  now subst.
Qed.

(** C1, evaluated on the knee catalog: whatever the random draws, the
    call returns a plan whose Monday holds Jump Squats, an exercise
    restricted for the knee injury the user has. *)
Theorem C1_restricted_exercise_in_plan (g : Rng.t) :
  exists plan entry e,
    returned (generate_workout_plan knee_engine knee_user (Some cardio_record) g) = Ok plan
    /\ In ("Monday", entry) (days plan)
    /\ In e (d_exercises entry)
    /\ base e = jump_squats
    /\ In "Knee Injury" (injury_restrictions (base e))
    /\ In "Knee Injury" (injuries knee_user).
Proof.
  rewrite (returned_after_stages knee_engine knee_user cardio_record [] g eq_refl).
  cbv zeta.
  destruct (guarded_stages _ _ _) as [r h] eqn:E.
  vm_compute in E. injection E as <- <-.
  unfold assemble. cbn [adapted_template].
  destruct (_generate_weekly_plan _ _ _ _ g) as [wp g'] eqn:Hw.
  apply (f_equal fst) in Hw. unfold _generate_weekly_plan, week_days in Hw.
  rewrite plan_days_cons in Hw.
  match type of Hw with
  | context [default (SStr "Rest") (?s !! 0)] =>
      let v := eval vm_compute in (default (SStr "Rest") (s !! 0)) in
      change (default (SStr "Rest") (s !! 0)) with v in Hw
  end.
  erewrite plan_day_single in Hw; [| reflexivity | reflexivity | reflexivity | reflexivity ].
  simpl in Hw. subst wp.
  eexists _, _, _. split; [reflexivity|]. simpl days.
  split; [left; reflexivity|]. simpl.
  split; [left; reflexivity|]. simpl. tauto.
Qed.

(** ** The stored templates across a call *)

(** C3, evaluated on the default engine and a beginner: the copy made by
    the resolver shares the [structure] of the stored template, the
    adapter writes Wednesday through it, and after the call the stored
    General Fitness template reads Rest on Wednesday where it read Core. *)
Theorem C3_stored_template_overwritten (g : Rng.t) :
  let o := generate_workout_plan default_engine beginner_user (Some cardio_record) g in
  stored_templates default_engine = [("General Fitness", Some default_structure)]
  /\ stored_templates (engine_after o)
     = [("General Fitness", Some (dict_set default_structure "Wednesday" (SStr "Rest")))]
  /\ stored_templates (engine_after o) <> stored_templates default_engine
  /\ templates (engine_after o) = templates default_engine
  /\ past_workouts (user_after o) = Some [cardio_record].
Proof.
  cbv zeta.
  rewrite (engine_after_heap default_engine beginner_user cardio_record [] g eq_refl).
  cbv zeta.
  destruct (guarded_stages _ _ _) as [r h] eqn:E.
  vm_compute in E. injection E as <- <-.
  split; [reflexivity|]. split; [reflexivity|]. split; [discriminate|].
  split; [reflexivity|].
  unfold generate_workout_plan. cbn [past_workouts beginner_user]. cbv zeta.
  destruct (guarded_stages _ _ _) as [[s|e] h].
  - destruct (assemble _ h s g) as [r g']. reflexivity.
  - destruct e; reflexivity.
Qed.

(** ** The recovery from attribute failures *)

(** C4, evaluated twice on the default engine.  A profile whose
    [past_workouts] is the declared default [None] makes the call raise
    [AttributeError] ahead of the guarded block, with no recovery.  A
    history entry without [get] makes the guarded block raise
    [AttributeError]; the handler then runs, and the call raises
    [UnboundLocalError] where it reads [adapted_template].  No plan is
    returned either way. *)
Theorem C4_attribute_failure_not_recovered (g : Rng.t) :
  returned (generate_workout_plan default_engine no_history_user (Some cardio_record) g)
    = Raise AttributeError
  /\ fst (guarded_stages default_engine
            (with_history beginner_user [PyStr "Cardio"]) [PyStr "Cardio"])
     = Raise AttributeError
  /\ returned (generate_workout_plan default_engine beginner_user (Some (PyStr "Cardio")) g)
     = Raise UnboundLocalError.
Proof.
  split; [reflexivity|]. split; [reflexivity|].
  apply (attribute_failure_never_recovers default_engine beginner_user
           (PyStr "Cardio") [] g eq_refl).
  reflexivity.
Qed.

(** ** What a returned plan is made of *)

Lemma delete_In {A : Type} (x : A) (l : list A) : forall i, In x (delete i l) -> In x l.
Proof.
  induction l as [|a l IH]; intros i H; [destruct i; exact H|].
  destruct i as [|i]; simpl in H.
  - now right.
  - destruct H as [->|H]; [now left | right; eauto].
Qed.

Lemma lookup_In {A : Type} (l : list A) (i : nat) (x : A) : l !! i = Some x -> In x l.
Proof.
  revert i. induction l as [|a l IH]; intros [|i] H; try discriminate.
  - injection H as ->. now left.
  - right. exact (IH i H).
Qed.

(** [random.sample] returns members of the population. *)
Lemma sample_In {A : Type} (k : nat) : forall (l : list A) (g : Rng.t) (x : A),
  In x (fst (Rng.sample k l g)) -> In x l.
Proof.
  induction k as [|k IH]; intros l g x H; [contradiction|].
  destruct l as [|a l]; [contradiction|].
  cbn [Rng.sample] in H. destruct (Rng.draw g) as [d g1].
  set (i := d mod length (a :: l)) in *.
  destruct (Rng.sample k (delete i (a :: l)) g1) as [others g2] eqn:Hs.
  cbn [fst] in H. destruct H as [<-|H].
  - destruct ((a :: l) !! i) as [y|] eqn:Hl; simpl.
    + exact (lookup_In _ _ _ Hl).
    + now left.
  - apply (delete_In x (a :: l) i). apply (IH _ g1). now rewrite Hs.
Qed.

(** Every exercise of a selection is a catalog record of the group,
    updated by [enhance]. *)
Lemma select_exercises_In available w params injuries g e :
  In e (fst (_select_exercises available w params injuries g)) ->
  exists x, In x available /\ matches_type w x = true /\ e = enhance params injuries x.
Proof.
  unfold _select_exercises. destruct available as [|a available]; [contradiction|].
  set (l := a :: available).
  destruct (List.filter (matches_type w) l) as [|t ts] eqn:Hf; [contradiction|].
  destruct (Rng.randint 2 3 g) as [n g1].
  destruct (Rng.sample _ (t :: ts) g1) as [selected g2] eqn:Hs.
  cbn [fst]. rewrite in_map_iff. intros [x [<- Hx]].
  assert (Hin : In x (t :: ts)).
  { apply (sample_In (Nat.min n (length (t :: ts))) _ g1). now rewrite Hs. }
  rewrite <- Hf in Hin. apply filter_In in Hin. destruct Hin as [Hin Hm].
  exists x. repeat split; assumption.
Qed.

Section PlanEntries.

Variable ebt : gmap string (list Exercise).
Variable params : Params.
Variable injuries : list string.

(** A property of day entries that every round of the loop over the
    days establishes holds of every entry of the week. *)
Variable P : DayEntry -> Prop.
Hypothesis P_round : forall workout_type g, P (fst (plan_day ebt params injuries workout_type g)).

Lemma plan_days_all sched ds : forall i g day entry,
  In (day, entry) (fst (plan_days ebt params injuries sched i ds g)) -> P entry.
Proof using P_round.
  induction ds as [|d ds IH]; intros i g day entry H; [contradiction|].
  rewrite plan_days_cons in H. destruct H as [H|H].
  - injection H as _ <-. apply P_round.
  - exact (IH _ _ _ _ H).
Qed.

End PlanEntries.

(** A returned plan is the weekly plan built for the user's own
    parameters and injuries, under the seven day names. *)
Lemma returned_plan_days eng user last_workout g plan :
  returned (generate_workout_plan eng user last_workout g) = Ok plan ->
  exists ebt structure,
    days plan =
      fst (_generate_weekly_plan ebt structure
             (_generate_progressive_parameters (fitness_level user) (goal user))
             (injuries user) g)
    /\ wp_user_id plan = user_id user /\ week_number plan = 1%Z.
Proof.
  destruct last_workout as [lw|]; [|discriminate].
  destruct (past_workouts user) as [past|] eqn:Hp.
  2:{ unfold generate_workout_plan. rewrite Hp. discriminate. }
  rewrite (returned_after_stages eng user lw past g Hp). cbv zeta.
  destruct (guarded_stages _ _ _) as [[s|e] h].
  - intros H. pose proof H as H'. apply assemble_ok in H as [a [Ha Hd]].
    exists (balanced_exercises s), (default [] (deref h (t_structure a))).
    split; [exact Hd|].
    unfold assemble in H'. rewrite Ha in H'.
    destruct (_generate_weekly_plan _ _ _ _ g) as [wp g']. simpl in H'.
    injection H' as <-. split; reflexivity.
  - destruct e; discriminate.
Qed.

(** ** 4.7: the parameters attached to a selected exercise *)

(** C5 as stated fails: for a beginner with goal General Fitness the
    Bodyweight Squats selected on Monday carry no [sets] of their own, and
    what the plan attaches is the range from 2 to 3, not the number 2. *)
Lemma C5_range_not_minimum :
  exists plan entry,
    returned beginner_plan_outcome = Ok plan
    /\ In ("Monday", entry) (days plan)
    /\ In squats_in_plan (d_exercises entry)
    /\ sets (base squats_in_plan) = None
    /\ pe_sets squats_in_plan = PRange {| rmin := 2; rmax := 3 |}
    /\ pe_sets squats_in_plan <> PInt 2.
Proof.
  eexists _, _. split; [vm_compute; reflexivity|].
  split; [left; reflexivity|].
  split; [left; reflexivity|].
  split; [reflexivity|]. split; [reflexivity | discriminate].
Qed.

(** C5, amended: an exercise of a returned plan that has no [sets] of its
    own carries the whole range of sets that
    [_generate_progressive_parameters] gives for the user's level and
    goal, and likewise for [reps] and [rest_period]; a value of its own
    is kept. *)
Theorem C5_attached_parameters eng user last_workout g plan day entry e :
  returned (generate_workout_plan eng user last_workout g) = Ok plan ->
  In (day, entry) (days plan) ->
  In e (d_exercises entry) ->
  let params := _generate_progressive_parameters (fitness_level user) (goal user) in
  pe_sets e = default (PRange (p_sets params)) (sets (base e))
  /\ pe_reps e = default (PRange (p_reps params)) (reps (base e))
  /\ pe_rest_period e = default (PRange (p_rest params)) (rest_period (base e))
  /\ (sets (base e) = None -> pe_sets e = PRange (p_sets params))
  /\ (reps (base e) = None -> pe_reps e = PRange (p_reps params))
  /\ (rest_period (base e) = None -> pe_rest_period e = PRange (p_rest params)).
Proof.
  intros Hr Hd He params.
  apply returned_plan_days in Hr as [ebt [structure [Hdays _]]].
  rewrite Hdays in Hd. unfold _generate_weekly_plan in Hd. fold params in Hd.
  revert e He.
  refine (plan_days_all ebt params (injuries user)
            (fun entry => forall e, In e (d_exercises entry) -> _) _ _ _ _ _ day entry Hd).
  intros w g0 e He. clear Hd.
  assert (Hx : exists x, e = enhance params (injuries user) x).
  { unfold plan_day in He. destruct w as [w|z]; [|contradiction].
    destruct (String.eqb w "Rest"); [contradiction|].
    destruct (String.eqb w "Active Recovery"); [contradiction|].
    destruct (_select_exercises _ w params (injuries user) g0) as [sel g1] eqn:Hs.
    cbn [fst d_exercises] in He.
    assert (He' : In e (fst (_select_exercises (default [] (ebt !! w)) w params
                               (injuries user) g0))) by now rewrite Hs.
    apply select_exercises_In in He' as [x [_ [_ ->]]]. now exists x. }
  destruct Hx as [x ->]. cbn [enhance base pe_sets pe_reps pe_rest_period].
  repeat split; try reflexivity; intros ->; reflexivity.
Qed.

Lemma C5_attached_parameters_witness :
  returned (generate_workout_plan default_engine beginner_user (Some cardio_record) [])
    = Ok beginner_plan
  /\ In ("Monday", entry_of beginner_plan "Monday") (days beginner_plan)
  /\ In squats_in_plan (d_exercises (entry_of beginner_plan "Monday"))
  /\ pe_sets squats_in_plan = PRange {| rmin := 2; rmax := 3 |}
  /\ pe_reps squats_in_plan = PRange {| rmin := 8; rmax := 12 |}
  /\ pe_rest_period squats_in_plan = PRange {| rmin := 60; rmax := 90 |}.
Proof.
  assert (H1 : returned (generate_workout_plan default_engine beginner_user
                           (Some cardio_record) []) = Ok beginner_plan)
    by (vm_compute; reflexivity).
  assert (H2 : In ("Monday", entry_of beginner_plan "Monday") (days beginner_plan))
    by (left; reflexivity).
  assert (H3 : In squats_in_plan (d_exercises (entry_of beginner_plan "Monday")))
    by (left; reflexivity).
  split; [exact H1|]. split; [exact H2|]. split; [exact H3|].
  destruct (C5_attached_parameters default_engine beginner_user (Some cardio_record) []
              beginner_plan "Monday" (entry_of beginner_plan "Monday") squats_in_plan
              H1 H2 H3) as [_ [_ [_ [Hs [Hr Ht]]]]].
  split; [exact (Hs eq_refl)|]. split; [exact (Hr eq_refl) | exact (Ht eq_refl)].
Defined.

(** ** Rest days and empty days *)





(** ** 4.6: the schedule optimizer, position by position *)

Lemma optimize_loop_from : forall (rest acc pre : list string),
  optimize_loop rest (Z.of_nat (length pre)) (rests_so_far (pre ++ rest) (length pre)) acc
  = acc ++ concat (imap (fun i workout =>
                           if rest_after (pre ++ rest) (S (length pre + i)) workout
                           then [workout; "Rest"] else [workout]) rest).
Proof.
  induction rest as [|w rest IH]; intros acc pre.
  - simpl. now rewrite app_nil_r.
  - cbn [optimize_loop imap concat].
    assert (Hlk : (pre ++ w :: rest) !! length pre = Some w).
    { rewrite lookup_app_r by lia. now rewrite Nat.sub_diag. }
    assert (Hs : rests_so_far (pre ++ w :: rest) (S (length pre)) =
                 if rest_after (pre ++ w :: rest) (S (length pre)) w
                 then (rests_so_far (pre ++ w :: rest) (length pre) + 1)%Z
                 else rests_so_far (pre ++ w :: rest) (length pre)).
    { cbn [rests_so_far]. rewrite Hlk. unfold rest_after.
      now replace (S (length pre) - 1) with (length pre) by lia. }
    assert (Hi : (Z.of_nat (length pre) + 1)%Z = Z.of_nat (length (pre ++ [w]))).
    { rewrite length_app. simpl. lia. }
    assert (Hl : S (length pre) = length (pre ++ [w])).
    { rewrite length_app. simpl. lia. }
    assert (Hc : pre ++ w :: rest = (pre ++ [w]) ++ rest).
    { now rewrite <- app_assoc. }
    assert (Hcond : ((Z.of_nat (length pre) + 1 - rests_so_far (pre ++ w :: rest) (length pre))
                       mod 3 =? 0)%Z && negb (str_in w ["Flexibility"; "Mobility"])
                    = rest_after (pre ++ w :: rest) (S (length pre)) w).
    { unfold rest_after, light.
      replace (S (length pre) - 1) with (length pre) by lia.
      now replace (Z.of_nat (S (length pre))) with (Z.of_nat (length pre) + 1)%Z by lia. }
    rewrite Hcond. replace (length pre + 0) with (length pre) by lia.
    assert (Himap :
               imap ((fun i workout =>
                        if rest_after (pre ++ w :: rest) (S (length pre + i)) workout
                        then [workout; "Rest"] else [workout]) ∘ S) rest
               = imap (fun i workout =>
                         if rest_after ((pre ++ [w]) ++ rest) (S (length (pre ++ [w]) + i)) workout
                         then [workout; "Rest"] else [workout]) rest).
    { apply imap_ext. intros i x _. simpl.
      rewrite <- Hc, <- Hl. now replace (length pre + S i) with (S (length pre) + i) by lia. }
    rewrite Himap. clear Himap Hcond.
    destruct (rest_after (pre ++ w :: rest) (S (length pre)) w);
      rewrite <- Hs, Hi, Hl, Hc, IH, <- !app_assoc; reflexivity.
Qed.

Lemma optimize_loop_with_rests (schedule : list string) :
  optimize_loop schedule 0%Z 0%Z [] = with_rests schedule.
Proof.
  exact (optimize_loop_from schedule [] []).
Qed.

Lemma optimize_loop_length : forall (schedule : list string) (i r : Z) (acc : list string),
  length acc + length schedule <= length (optimize_loop schedule i r acc).
Proof.
  induction schedule as [|w rest IH]; intros i r acc; cbn [optimize_loop].
  - simpl. lia.
  - destruct (_ && _).
    + etransitivity; [|apply IH]. rewrite !length_app. simpl. lia.
    + etransitivity; [|apply IH]. rewrite !length_app. simpl. lia.
Qed.

Lemma expand_frequency_length (structure : pydict) :
  7 <= length (expand_frequency structure).
Proof.
  unfold expand_frequency. rewrite length_app, repeat_length. lia.
Qed.

Lemma rest_after_iff (schedule : list string) (p : nat) (workout : string) :
  rest_after schedule (S p) workout = true <->
  ((Z.of_nat (S p) - rests_so_far schedule p) mod 3 = 0)%Z
  /\ workout <> "Flexibility" /\ workout <> "Mobility".
Proof.
  unfold rest_after, light. replace (S p - 1) with p by lia.
  rewrite andb_true_iff, Z.eqb_eq, negb_true_iff.
  split; intros [H1 H2]; (split; [exact H1|]).
  - split; intros ->; discriminate.
  - destruct (str_in workout _) eqn:E; [|reflexivity].
    apply str_in_In in E. simpl in E. destruct H2. intuition congruence.
Qed.

Example weight_loss_schedule :
  _create_day_schedule
    [("HIIT", SInt 3); ("Cardio", SInt 2); ("Strength", SInt 1); ("Flexibility", SInt 1)]
  = map SStr ["HIIT"; "HIIT"; "HIIT"; "Rest"; "Cardio"; "Rest"; "Cardio"].
Proof. reflexivity. Qed.

(** C7: for the schedule expanded from a frequency-form structure (which
    has at least seven entries), the optimizer walks the entries and puts
    a Rest right after the entry at 1-based position [p] exactly when [p]
    minus the number of Rests inserted so far is a multiple of 3 and the
    entry is neither Flexibility nor Mobility; what it returns is the
    first seven entries of that walk, and has exactly seven entries. *)
Theorem C7_schedule_optimizer (structure : pydict) :
  let schedule := expand_frequency structure in
  7 <= length schedule
  /\ optimize_loop schedule 0%Z 0%Z [] = with_rests schedule
  /\ _optimize_schedule schedule = firstn 7 (with_rests schedule)
  /\ length (_optimize_schedule schedule) = 7
  /\ (forall p workout, schedule !! p = Some workout ->
        (rest_after schedule (S p) workout = true <->
         ((Z.of_nat (S p) - rests_so_far schedule p) mod 3 = 0)%Z
         /\ workout <> "Flexibility" /\ workout <> "Mobility"))
  /\ (existsb (dict_has structure) week_days = false ->
        _create_day_schedule structure = map SStr (firstn 7 (with_rests schedule))
        /\ length (_create_day_schedule structure) = 7).
Proof.
  intros schedule.
  pose proof (expand_frequency_length structure) as Hlen. fold schedule in Hlen.
  assert (Hopt : _optimize_schedule schedule = firstn 7 (with_rests schedule)).
  { unfold _optimize_schedule. now rewrite optimize_loop_with_rests. }
  assert (Hseven : length (_optimize_schedule schedule) = 7).
  { unfold _optimize_schedule. rewrite length_take.
    pose proof (optimize_loop_length schedule 0%Z 0%Z []) as H. simpl in H. lia. }
  split; [exact Hlen|]. split; [apply optimize_loop_with_rests|].
  split; [exact Hopt|]. split; [exact Hseven|].
  split; [intros p workout _; apply rest_after_iff|].
  intros Hfreq. unfold _create_day_schedule. rewrite Hfreq. fold schedule.
  split; [now rewrite Hopt | now rewrite length_map].
Qed.

(** ** 4.3: the muscle-group balancer *)

Lemma greedy_pass_greedy : forall exs sel bal,
  greedy_pass exs sel bal = bal ++ greedy exs sel.
Proof.
  induction exs as [|e rest IH]; intros sel bal; simpl.
  - now rewrite app_nil_r.
  - fold (claimed_by sel e). destruct (claimed_by sel e).
    + apply IH.
    + rewrite IH, <- app_assoc. reflexivity.
Qed.

Lemma claimed_by_false (sel : gset string) (e : Exercise) :
  claimed_by sel e = false <-> forall m, In m (muscle_groups e) -> m ∉ sel.
Proof.
  unfold claimed_by. rewrite <- not_true_iff_false, existsb_exists. split.
  - intros H m Hm Hsel. apply H. exists m. split; [exact Hm|].
    now apply bool_decide_eq_true.
  - intros H [m [Hm Hsel]]. apply bool_decide_eq_true in Hsel. exact (H m Hm Hsel).
Qed.

Lemma elem_of_muscles_of (m : string) (l : list Exercise) :
  m ∈ muscles_of l <-> exists e, In e l /\ In m (muscle_groups e).
Proof.
  unfold muscles_of. rewrite elem_of_list_to_set, list_elem_of_In, in_concat. split.
  - intros [ms [Hms Hm]]. apply in_map_iff in Hms as [e [<- He]]. now exists e.
  - intros [e [He Hm]]. exists (muscle_groups e). split; [|exact Hm].
    apply in_map_iff. now exists e.
Qed.

Lemma muscles_of_cons (e : Exercise) (l : list Exercise) :
  muscles_of (e :: l) = list_to_set (muscle_groups e) ∪ muscles_of l.
Proof.
  unfold muscles_of. simpl. apply list_to_set_app_L.
Qed.

Lemma greedy_In : forall exs sel x, In x (greedy exs sel) -> In x exs.
Proof.
  induction exs as [|e rest IH]; intros sel x H; [contradiction|].
  simpl in H. destruct (claimed_by sel e).
  - right. exact (IH _ _ H).
  - destruct H as [->|H]; [now left | right; exact (IH _ _ H)].
Qed.


Lemma filter_sublist {A : Type} (f : A -> bool) (l : list A) :
  List.filter f l `sublist_of` l.
Proof.
  induction l as [|a l IH]; simpl; [constructor|].
  destruct (f a); [now apply sublist_skip | now apply sublist_cons].
Qed.

(** The pass over a list split in two: the second part starts from the
    muscle groups the first part has claimed. *)
Lemma greedy_app : forall pre rest sel,
  greedy (pre ++ rest) sel
  = greedy pre sel ++ greedy rest (sel ∪ muscles_of (greedy pre sel)).
Proof.
  induction pre as [|e pre IH]; intros rest sel; simpl.
  - replace (sel ∪ muscles_of []) with sel; [reflexivity|].
    symmetry. apply (right_id_L (∅ : gset string) (∪)).
  - destruct (claimed_by sel e).
    + apply IH.
    + rewrite IH. simpl. f_equal. rewrite muscles_of_cons.
      now rewrite (assoc_L (∪)).
Qed.

Lemma balance_group_greedy (exs : list Exercise) :
  balance_group exs
  = greedy exs ∅
      ++ List.filter (fun ex => negb (bool_decide (ex ∈ greedy exs ∅))) exs.
Proof.
  unfold balance_group. now rewrite greedy_pass_greedy.
Qed.



Example balance_strength_group :
  map name (balance_group strength_group)
  = ["Dumbbell Thrusters"; "Resistance Band Rows"; "Step-Ups"; "Bodyweight Squats"].
Proof. vm_compute. reflexivity. Qed.

(** Without distinct names the remainder can lose a record: the second
    copy is not accepted, and [ex not in balanced_exercises] finds the
    first. *)
Example balance_group_repeated_record :
  balance_group [jump_squats; jump_squats] = [jump_squats].
Proof. vm_compute. reflexivity. Qed.


(** ** 4.2: the order of the sort keys *)


Lemma string_compare_refl (a : string) : String.compare a a = Eq.
Proof.
  induction a as [|x a IH]; simpl; [reflexivity|].
  unfold Ascii.compare. now rewrite N.compare_refl.
Qed.






(** ** 4.2: the descending sort *)

Lemma insert_desc_perm (x : Q * Exercise) (l : list (Q * Exercise)) :
  Permutation (x :: l) (insert_desc x l).
Proof.
  induction l as [|y l IH]; simpl; [reflexivity|].
  destruct (key_lt (sort_key x) (sort_key y)); [|reflexivity].
  rewrite perm_swap. now apply perm_skip.
Qed.

Lemma sorted_reverse_perm (l : list (Q * Exercise)) : Permutation l (sorted_reverse l).
Proof.
  induction l as [|x l IH]; simpl; [reflexivity|].
  rewrite <- insert_desc_perm. now apply perm_skip.
Qed.




(** ** 4.2: the history tables and the six rules *)

Lemma ratings_of_snoc key seen w k :
  ratings_of key (seen ++ [w]) k
  = ratings_of key seen k
    ++ (if completed w && negb (String.eqb (key w) "") && String.eqb (key w) k
        then [default 3%Z (satisfaction w)] else []).
Proof.
  unfold ratings_of. rewrite List.filter_app, map_app. simpl.
  now destruct (completed w && negb (String.eqb (key w) "") && String.eqb (key w) k).
Qed.


Lemma table_ok_step key seen d w :
  table_ok key seen d ->
  table_ok key (seen ++ [w])
    (if completed w
     then if String.eqb (key w) "" then d
          else add_rating (key w) (default 3%Z (satisfaction w)) d
     else d).
Proof.
  intros Hd k. rewrite ratings_of_snoc. specialize (Hd k).
  destruct (completed w); simpl; [|now rewrite app_nil_r].
  destruct (String.eqb (key w) "") eqn:Hk; simpl; [now rewrite app_nil_r|].
  unfold add_rating. destruct (String.eqb (key w) k) eqn:Hkk.
  - apply String.eqb_eq in Hkk. subst k. rewrite lookup_insert_eq, Hd.
    destruct (ratings_of key seen (key w)); reflexivity.
  - apply String.eqb_neq in Hkk. rewrite lookup_insert_ne by exact Hkk.
    now rewrite app_nil_r.
Qed.

Lemma analyse_history_tables : forall (records seen : list WorkoutRecord) (acc : tables),
  table_ok workout_type seen (fst acc) ->
  table_ok w_intensity seen (snd acc) ->
  exists t, analyse_history (map PyDict records) acc = Ok t
            /\ table_ok workout_type (seen ++ records) (fst t)
            /\ table_ok w_intensity (seen ++ records) (snd t).
Proof.
  induction records as [|w records IH]; intros seen acc H1 H2; simpl.
  - exists acc. now rewrite app_nil_r.
  - replace (seen ++ w :: records) with ((seen ++ [w]) ++ records)
      by now rewrite <- app_assoc.
    apply IH; unfold record_workout.
    + pose proof (table_ok_step workout_type seen (fst acc) w H1) as H.
      now destruct (completed w).
    + pose proof (table_ok_step w_intensity seen (snd acc) w H2) as H.
      now destruct (completed w).
Qed.





(** Plank and Bodyweight Squats both score 2 for a beginner whose history
    is one Cardio workout; the name decides, the later name first. *)
Example scorer_tie_break :
  (fun r => match r with Ok l => map name l | Raise _ => [] end)
    (_apply_user_preferences
       (candidate_exercises default_exercises ["Knee Injury"] ["Dumbbells"])
       [] "Beginner" [cardio_record])
  = ["Plank"; "Bodyweight Squats"; "Dumbbell Thrusters"].
Proof. vm_compute. reflexivity. Qed.

(** * Further properties of the engine *)

(** ** Progressive parameters *)

(** Whatever the level and the goal (unknown levels count as Beginner),
    the three ranges have a positive minimum that does not exceed the
    maximum: the goal adjustments never cross a range. *)
Theorem progressive_parameters_ranges (fitness_level goal : string) :
  let p := _generate_progressive_parameters fitness_level goal in
  range_ok (p_sets p) /\ range_ok (p_reps p) /\ range_ok (p_rest p).
Proof.
  unfold _generate_progressive_parameters, base_params, range_ok.
  destruct (String.eqb fitness_level "Intermediate");
    destruct (String.eqb fitness_level "Advanced");
    destruct (String.eqb goal "Muscle Gain");
    destruct (String.eqb goal "Endurance"); simpl; lia.
Qed.

(** ** Grouping by type *)

Lemma categorize_fold : forall (exs seen : list Exercise) (acc : gmap string (list Exercise)),
  (forall k, acc !! k = group_of (List.filter (fun e => String.eqb (category e) k) seen)) ->
  forall k,
    fold_left (fun categorized e =>
                 let k := default "Other" (exercise_type e) in
                 <[k := default [] (categorized !! k) ++ [e]]> categorized) exs acc !! k
    = group_of (List.filter (fun e => String.eqb (category e) k) (seen ++ exs)).
Proof.
  induction exs as [|e exs IH]; intros seen acc Hacc k; simpl.
  - now rewrite app_nil_r.
  - replace (seen ++ e :: exs) with ((seen ++ [e]) ++ exs) by now rewrite <- app_assoc.
    apply IH. clear k. intros k. rewrite List.filter_app. simpl.
    fold (category e). destruct (String.eqb (category e) k) eqn:Hk.
    + apply String.eqb_eq in Hk. subst k. rewrite lookup_insert_eq, Hacc.
      now destruct (List.filter _ seen).
    + apply String.eqb_neq in Hk. rewrite lookup_insert_ne by exact Hk.
      now rewrite app_nil_r.
Qed.

(** The group filed under a key holds exactly the exercises of that type
    (exercises without a type go under Other), in the order they had in
    the input; a key with no exercise does not exist. *)
Theorem categorize_exercises_lookup (exs : list Exercise) (k : string) :
  _categorize_exercises exs !! k
  = group_of (List.filter (fun e => String.eqb (category e) k) exs).
Proof.
  unfold _categorize_exercises.
  apply (categorize_fold exs [] ∅). intros k'. now rewrite lookup_empty.
Qed.

(** ** Sampling and selection *)

Lemma mod_length_lookup {A : Type} (a : A) (l : list A) (d : nat) :
  exists x, (a :: l) !! (d mod length (a :: l)) = Some x.
Proof.
  apply lookup_lt_is_Some_2. apply Nat.mod_upper_bound. discriminate.
Qed.

Lemma sample_split {A : Type} (k : nat) :
  forall (population : list A) (g : Rng.t),
    (exists left_over, Permutation (fst (Rng.sample k population g) ++ left_over) population)
    /\ length (fst (Rng.sample k population g)) = Nat.min k (length population).
Proof.
  induction k as [|k IH]; intros population g.
  - split; [exists population; reflexivity | reflexivity].
  - destruct population as [|a l].
    + split; [exists []; reflexivity | reflexivity].
    + cbn [Rng.sample]. destruct (Rng.draw g) as [d g1].
      destruct (mod_length_lookup a l d) as [x Hx].
      set (i := d mod length (a :: l)) in *.
      destruct (IH (delete i (a :: l)) g1) as [[left_over Hperm] Hlen].
      destruct (Rng.sample k (delete i (a :: l)) g1) as [others g2].
      cbn [fst] in *. rewrite Hx. cbn [default].
      split.
      * exists left_over. simpl. rewrite Hperm. symmetry. now apply delete_Permutation.
      * simpl. rewrite Hlen. rewrite length_delete by (now exists x). simpl. lia.
Qed.

(** [random.sample] draws without replacement: what it returns, put
    together with what it leaves, is the population again; it returns
    [k] elements, or the whole population if that is smaller; and from a
    population without repetition it returns no element twice. *)
Lemma sample_without_replacement {A : Type} (k : nat) (population : list A)
    (g : Rng.t) :
  let chosen := fst (Rng.sample k population g) in
  (exists left_over, Permutation (chosen ++ left_over) population)
  /\ length chosen = Nat.min k (length population)
  /\ (forall x, In x chosen -> In x population)
  /\ (NoDup population -> NoDup chosen).
Proof.
  cbv zeta. destruct (sample_split k population g) as [[left_over Hperm] Hlen].
  split; [now exists left_over|]. split; [exact Hlen|]. split.
  - intros x Hx. apply (Permutation_in _ Hperm). apply in_or_app. now left.
  - intros Hnd. rewrite <- Hperm in Hnd. now apply NoDup_app in Hnd as [Hnd _].
Qed.


(** For an exercise that none of the user's injuries restricts, the note
    is about form only: the one for high intensity, or the default. *)
Theorem notes_without_conflict (exercise : Exercise) (injuries : list string) :
  conflict injuries exercise = false ->
  _generate_exercise_notes exercise injuries
  = if opt_is (intensity exercise) "High" then "Monitor form carefully"
    else "Perform with proper form".
Proof.
  intros Hc. unfold _generate_exercise_notes.
  assert (Hf : List.filter (fun injury => str_in injury (injury_restrictions exercise))
                 injuries = []).
  { apply filter_nil_iff. intros injury Hin.
    destruct (str_in injury (injury_restrictions exercise)) eqn:Hs; [|reflexivity].
    apply str_in_In in Hs.
    assert (conflict injuries exercise = true); [|congruence].
    apply conflict_spec. now exists injury. }
  rewrite Hf. simpl. now destruct (opt_is (intensity exercise) "High").
Qed.

Lemma notes_without_conflict_witness :
  conflict ["Knee Injury"] barbell_squat = false
  /\ _generate_exercise_notes barbell_squat ["Knee Injury"] = "Monitor form carefully".
Proof.
  split; [reflexivity|].
  exact (notes_without_conflict barbell_squat ["Knee Injury"] eq_refl).
Defined.

(** ** The week's schedule *)

(** Whatever the structure, the schedule has seven entries.  When the
    structure has a weekday among its keys, the entry of a day is the
    structure's value for it, and Rest for a day that is not a key; keys
    that are no weekday are ignored. *)
Theorem create_day_schedule_week (structure : pydict) :
  length (_create_day_schedule structure) = 7
  /\ (existsb (dict_has structure) week_days = true ->
      forall i day, week_days !! i = Some day ->
        _create_day_schedule structure !! i
        = Some (default (SStr "Rest") (dict_get structure day))).
Proof.
  unfold _create_day_schedule. split.
  - destruct (existsb (dict_has structure) week_days).
    + now rewrite length_map.
    + rewrite length_map. unfold _optimize_schedule. rewrite length_take.
      pose proof (optimize_loop_length (expand_frequency structure) 0%Z 0%Z []) as H.
      pose proof (expand_frequency_length structure). simpl in H. lia.
  - intros -> i day Hday. rewrite list_lookup_fmap, Hday. reflexivity.
Qed.

Lemma create_day_schedule_week_witness :
  existsb (dict_has [("Tuesday", SStr "Cardio"); ("Yoga", SInt 2)]) week_days = true
  /\ forall i day, week_days !! i = Some day ->
       _create_day_schedule [("Tuesday", SStr "Cardio"); ("Yoga", SInt 2)] !! i
       = Some (default (SStr "Rest")
                 (dict_get [("Tuesday", SStr "Cardio"); ("Yoga", SInt 2)] day)).
Proof.
  split; [reflexivity|].
  exact (proj2 (create_day_schedule_week [("Tuesday", SStr "Cardio"); ("Yoga", SInt 2)])
           eq_refl).
Defined.

Lemma with_rests_from : forall (rest pre : list string),
  let walk := concat (imap (fun i workout =>
                              if rest_after (pre ++ rest) (S (length pre + i)) workout
                              then [workout; "Rest"] else [workout]) rest) in
  rest `sublist_of` walk
  /\ List.filter (fun w => negb (String.eqb w "Rest")) walk
     = List.filter (fun w => negb (String.eqb w "Rest")) rest.
Proof.
  induction rest as [|w rest IH]; intros pre; cbv zeta.
  - split; [constructor | reflexivity].
  - cbn [imap concat].
    assert (Himap :
               imap ((fun i workout =>
                        if rest_after (pre ++ w :: rest) (S (length pre + i)) workout
                        then [workout; "Rest"] else [workout]) ∘ S) rest
               = imap (fun i workout =>
                         if rest_after ((pre ++ [w]) ++ rest) (S (length (pre ++ [w]) + i)) workout
                         then [workout; "Rest"] else [workout]) rest).
    { apply imap_ext. intros i x _. simpl.
      rewrite <- app_assoc, length_app. simpl.
      now replace (length pre + 1 + i) with (length pre + S i) by lia. }
    rewrite Himap. destruct (IH (pre ++ [w])) as [Hsub Hfil].
    destruct (rest_after _ _ w); simpl.
    + split; [now apply sublist_skip, sublist_cons|].
      destruct (String.eqb w "Rest"); simpl; now rewrite Hfil.
    + split; [now apply sublist_skip|].
      destruct (String.eqb w "Rest"); simpl; now rewrite Hfil.
Qed.

(** Before the cut to seven entries the optimizer only adds Rest
    entries: the input is kept entry by entry and in order, and without
    its Rest entries the walk reads as the input without its own. *)
Theorem optimizer_only_adds_rest (schedule : list string) :
  schedule `sublist_of` optimize_loop schedule 0%Z 0%Z []
  /\ List.filter (fun w => negb (String.eqb w "Rest")) (optimize_loop schedule 0%Z 0%Z [])
     = List.filter (fun w => negb (String.eqb w "Rest")) schedule
  /\ _optimize_schedule schedule = firstn 7 (optimize_loop schedule 0%Z 0%Z [])
  /\ length (_optimize_schedule schedule) <= 7.
Proof.
  rewrite optimize_loop_with_rests. unfold with_rests.
  destruct (with_rests_from schedule []) as [H1 H2]. simpl in H1, H2.
  split; [exact H1|]. split; [exact H2|].
  unfold _optimize_schedule. rewrite optimize_loop_with_rests. split; [reflexivity|].
  rewrite length_take. lia.
Qed.

(** Where the optimizer puts its Rest entries: none after the first two
    entries; one after the third unless that is Flexibility or Mobility;
    and once a Rest has been put after an entry, one is put after the
    entry that follows, unless that is Flexibility or Mobility. *)
Theorem optimizer_rest_pattern (schedule : list string) :
  optimize_loop schedule 0%Z 0%Z [] = with_rests schedule
  /\ (forall w, rest_after schedule 1 w = false /\ rest_after schedule 2 w = false)
  /\ (forall w, rest_after schedule 3 w = negb (light w))
  /\ (forall p w w', schedule !! p = Some w -> schedule !! S p = Some w' ->
        rest_after schedule (S p) w = true ->
        rest_after schedule (S (S p)) w' = negb (light w')).
Proof.
  assert (H1 : forall w, rest_after schedule 1 w = false).
  { intros w. unfold rest_after. simpl. reflexivity. }
  assert (R1 : rests_so_far schedule 1 = 0%Z).
  { cbn [rests_so_far]. destruct (schedule !! 0); reflexivity. }
  assert (R2 : rests_so_far schedule 2 = 0%Z).
  { cbn [rests_so_far] in *. destruct (schedule !! 1); [|exact R1].
    rewrite R1. reflexivity. }
  split; [apply optimize_loop_with_rests|]. split; [|split].
  - intros w. split; [apply H1|]. unfold rest_after.
    replace (2 - 1) with 1 by lia. rewrite R1. reflexivity.
  - intros w. unfold rest_after. replace (3 - 1) with 2 by lia. rewrite R2. reflexivity.
  - intros p w w' Hw Hw' Hr. unfold rest_after in *.
    replace (S p - 1) with p in Hr by lia. replace (S (S p) - 1) with (S p) by lia.
    apply andb_true_iff in Hr as [Hm Hl].
    cbn [rests_so_far]. rewrite Hw. fold (light w). rewrite Hm, Hl. cbn [andb].
    apply Z.eqb_eq in Hm.
    replace (Z.of_nat (S (S p)) - (rests_so_far schedule p + 1))%Z
      with (Z.of_nat (S p) - rests_so_far schedule p)%Z by lia.
    rewrite Hm. reflexivity.
Qed.

Lemma optimizer_rest_pattern_witness :
  ["HIIT"; "HIIT"; "HIIT"; "Cardio"] !! 2 = Some "HIIT"
  /\ ["HIIT"; "HIIT"; "HIIT"; "Cardio"] !! 3 = Some "Cardio"
  /\ rest_after ["HIIT"; "HIIT"; "HIIT"; "Cardio"] 3 "HIIT" = true
  /\ rest_after ["HIIT"; "HIIT"; "HIIT"; "Cardio"] 4 "Cardio" = negb (light "Cardio").
Proof.
  split; [reflexivity|]. split; [reflexivity|]. split; [reflexivity|].
  exact (proj2 (proj2 (proj2 (optimizer_rest_pattern ["HIIT"; "HIIT"; "HIIT"; "Cardio"])))
           2 "HIIT" "Cardio" eq_refl eq_refl eq_refl).
Defined.

(** ** More on the muscle-group balancer *)

Lemma claimed_by_true (sel : gset string) (e : Exercise) :
  claimed_by sel e = true <-> exists m, In m (muscle_groups e) /\ m ∈ sel.
Proof.
  unfold claimed_by. rewrite existsb_exists.
  split; intros [m [Hm Hs]]; exists m; (split; [exact Hm|]).
  - now apply bool_decide_eq_true in Hs.
  - now apply bool_decide_eq_true.
Qed.

(** An exercise the pass leaves out has a muscle group among those the
    pass ends with. *)
Lemma greedy_rejected : forall exs sel x,
  In x exs -> ~ In x (greedy exs sel) ->
  exists m, In m (muscle_groups x) /\ m ∈ sel ∪ muscles_of (greedy exs sel).
Proof.
  induction exs as [|e rest IH]; intros sel x Hin Hout; [contradiction|].
  simpl in Hout |- *. destruct (claimed_by sel e) eqn:Hc.
  - destruct Hin as [<-|Hin]; [|now apply IH].
    apply claimed_by_true in Hc as [m [Hm Hs]]. exists m. split; [exact Hm|].
    now apply elem_of_union_l.
  - destruct Hin as [<-|Hin]; [exfalso; apply Hout; now left|].
    destruct (IH (sel ∪ list_to_set (muscle_groups e)) x Hin) as [m [Hm Hs]].
    { intros H. apply Hout. now right. }
    exists m. split; [exact Hm|]. rewrite muscles_of_cons.
    now rewrite (assoc_L (∪)).
Qed.

Lemma greedy_disjoint : forall exs sel,
  StronglySorted muscle_disjoint (greedy exs sel)
  /\ forall a, In a (greedy exs sel) -> forall m, In m (muscle_groups a) -> m ∉ sel.
Proof.
  induction exs as [|e rest IH]; intros sel; simpl.
  - split; [constructor | intros a []].
  - destruct (claimed_by sel e) eqn:Hc; [apply IH|].
    destruct (IH (sel ∪ list_to_set (muscle_groups e))) as [Hs Hd].
    rewrite claimed_by_false in Hc. split.
    + constructor; [exact Hs|]. apply Forall_forall. intros b Hb m Hm Hmb.
      apply list_elem_of_In in Hb. apply (Hd b Hb m Hmb).
      apply elem_of_union_r, elem_of_list_to_set. now apply list_elem_of_In.
    + intros a [<-|Ha] m Hm; [now apply Hc|].
      intros Hsel. apply (Hd a Ha m Hm). now apply elem_of_union_l.
Qed.

Lemma greedy_greedy : forall exs sel, greedy (greedy exs sel) sel = greedy exs sel.
Proof.
  induction exs as [|e rest IH]; intros sel; simpl; [reflexivity|].
  destruct (claimed_by sel e) eqn:Hc; [apply IH|].
  simpl. rewrite Hc. now rewrite IH.
Qed.

Lemma greedy_all_claimed : forall l sel,
  (forall x, In x l -> claimed_by sel x = true) -> greedy l sel = [].
Proof.
  induction l as [|e l IH]; intros sel H; simpl; [reflexivity|].
  rewrite (H e (or_introl eq_refl)). apply IH. intros x Hx. apply H. now right.
Qed.

Lemma greedy_length_filter : forall exs sel (L : list Exercise),
  (forall x, In x (greedy exs sel) -> In x L) ->
  length (greedy exs sel)
  + length (List.filter (fun ex => negb (bool_decide (ex ∈ L))) exs) <= length exs.
Proof.
  induction exs as [|e rest IH]; intros sel L HL; simpl; [lia|].
  simpl in HL. destruct (claimed_by sel e).
  - specialize (IH sel L HL). destruct (negb _); simpl; lia.
  - assert (He : bool_decide (e ∈ L) = true).
    { apply bool_decide_eq_true, list_elem_of_In, HL. now left. }
    rewrite He. simpl.
    specialize (IH (sel ∪ list_to_set (muscle_groups e)) L (fun x Hx => HL x (or_intror Hx))).
    lia.
Qed.

(** With or without repeated records, the balancer returns exercises of
    its input only, leaves out none of the exercises that occur in it,
    never returns more entries than it was given, and keeps the first
    exercise first. *)
Theorem balance_group_members (exs : list Exercise) :
  (forall x, In x (balance_group exs) <-> In x exs)
  /\ length (balance_group exs) <= length exs
  /\ hd_error (balance_group exs) = hd_error exs.
Proof.
  rewrite balance_group_greedy. split; [|split].
  - intros x. rewrite in_app_iff, filter_In, negb_true_iff, bool_decide_eq_false,
      list_elem_of_In. split.
    + intros [H|[H _]]; [exact (greedy_In _ _ _ H) | exact H].
    + intros H. destruct (decide (x ∈ greedy exs ∅)) as [Ha|Ha];
        rewrite list_elem_of_In in Ha; [now left | now right].
  - rewrite length_app. apply greedy_length_filter. tauto.
  - destruct exs as [|e rest]; [reflexivity|]. simpl.
    assert (Hc : claimed_by ∅ e = false).
    { apply claimed_by_false. intros m _. apply not_elem_of_empty. }
    now rewrite Hc.
Qed.

(** The output of the balancer splits in two: first exercises that
    pairwise share no muscle group, then exercises that each share a
    muscle group with one of the first part. *)
Theorem balance_group_split (exs : list Exercise) :
  exists accepted others,
    balance_group exs = accepted ++ others
    /\ StronglySorted muscle_disjoint accepted
    /\ forall x, In x others ->
         exists a m, In a accepted /\ In m (muscle_groups a) /\ In m (muscle_groups x).
Proof.
  exists (greedy exs ∅),
         (List.filter (fun ex => negb (bool_decide (ex ∈ greedy exs ∅))) exs).
  split; [apply balance_group_greedy|]. split; [apply greedy_disjoint|].
  intros x Hx. apply filter_In in Hx as [Hin Hout].
  rewrite negb_true_iff, bool_decide_eq_false, list_elem_of_In in Hout.
  destruct (greedy_rejected exs ∅ x Hin Hout) as [m [Hm Hs]].
  apply elem_of_union in Hs as [Hs|Hs]; [now apply not_elem_of_empty in Hs|].
  apply elem_of_muscles_of in Hs as [a [Ha Hma]]. now exists a, m.
Qed.

Lemma filter_twice {A : Type} (f : A -> bool) (l : list A) :
  List.filter f (List.filter f l) = List.filter f l.
Proof.
  induction l as [|a l IH]; [reflexivity|]. simpl.
  destruct (f a) eqn:Ha; simpl; [rewrite Ha|]; now rewrite IH.
Qed.

(** Balancing a balanced group changes nothing. *)
Theorem balance_group_idempotent (exs : list Exercise) :
  balance_group (balance_group exs) = balance_group exs.
Proof.
  rewrite (balance_group_greedy exs).
  set (acc := greedy exs ∅).
  set (rej := List.filter (fun ex => negb (bool_decide (ex ∈ acc))) exs).
  rewrite balance_group_greedy.
  assert (Hg : greedy (acc ++ rej) ∅ = acc).
  { assert (Ha : greedy acc ∅ = acc) by apply greedy_greedy.
    rewrite greedy_app, !Ha.
    rewrite greedy_all_claimed; [apply app_nil_r|].
    intros x Hx. unfold rej in Hx. apply filter_In in Hx as [Hin Hout].
    rewrite negb_true_iff, bool_decide_eq_false, list_elem_of_In in Hout.
    apply claimed_by_true. exact (greedy_rejected exs ∅ x Hin Hout). }
  rewrite Hg. f_equal. rewrite List.filter_app.
  assert (H1 : List.filter (fun ex => negb (bool_decide (ex ∈ acc))) acc = []).
  { apply filter_nil_iff. intros x Hx. apply negb_false_iff, bool_decide_eq_true.
    now apply list_elem_of_In. }
  rewrite H1. simpl. unfold rej. apply filter_twice.
Qed.

(** ** More on the preference scorer *)



Lemma satisfaction_bonus_range (avg : option Q) :
  (0 <= satisfaction_bonus avg <= 2)%Q.
Proof.
  unfold satisfaction_bonus. destruct avg as [s|]; [|split; discriminate].
  destruct (Qle_bool 4 s); [split; discriminate|].
  destruct (Qle_bool 3 s); split; discriminate.
Qed.

(** Whatever the history, a score lies between 0 and 8.5. *)
Theorem exercise_score_range (preferred_types : list string) (fitness_level : string)
    (avg_type avg_intensity : gmap string Q) (e : Exercise) :
  (0 <= exercise_score preferred_types fitness_level avg_type avg_intensity e <= 17 # 2)%Q.
Proof.
  unfold exercise_score. cbv zeta.
  pose proof (satisfaction_bonus_range (avg_intensity !! default "Moderate" (intensity e)))
    as [Hi0 Hi2].
  pose proof (satisfaction_bonus_range (exercise_type e ≫= fun t => avg_type !! t))
    as [Ht0 Ht2].
  revert Hi0 Hi2 Ht0 Ht2.
  generalize (satisfaction_bonus (avg_intensity !! default "Moderate" (intensity e))).
  generalize (satisfaction_bonus (exercise_type e ≫= fun t => avg_type !! t)).
  intros bt bi Hi0 Hi2 Ht0 Ht2.
  assert (Hsum : (0 <= bi + bt <= 4)%Q).
  { split.
    - apply (Qle_trans _ (0 + 0)); [discriminate | now apply Qplus_le_compat].
    - apply (Qle_trans _ (2 + 2)); [now apply Qplus_le_compat | discriminate]. }
  destruct Hsum as [H0 H4].
  assert (Hlow : forall c : Q, (0 <= c)%Q -> (0 <= c + bi + bt)%Q).
  { intros c Hc. rewrite <- Qplus_assoc.
    apply (Qle_trans _ (0 + 0)); [discriminate | now apply Qplus_le_compat]. }
  assert (Hup : forall c d : Q, (c + 4 + d <= 17 # 2)%Q -> (c + bi + bt + d <= 17 # 2)%Q).
  { intros c d Hc. eapply Qle_trans; [|exact Hc].
    apply Qplus_le_compat; [|apply Qle_refl].
    rewrite <- !Qplus_assoc. apply Qplus_le_compat; [apply Qle_refl | exact H4]. }
  assert (Hup0 : forall c : Q, (c + 4 <= 17 # 2)%Q -> (c + bi + bt <= 17 # 2)%Q).
  { intros c Hc. eapply Qle_trans; [|exact Hc].
    rewrite <- !Qplus_assoc. apply Qplus_le_compat; [apply Qle_refl | exact H4]. }
  assert (Hlow1 : forall c : Q, (0 <= c)%Q -> (0 <= c + bi + bt + 1)%Q).
  { intros c Hc. apply (Qle_trans _ (0 + 0)); [discriminate|].
    apply Qplus_le_compat; [now apply Hlow | discriminate]. }
  repeat match goal with
         | |- context [if ?c then _ else _] => destruct c
         end;
    (split; [first [apply Hlow1 | apply Hlow] | first [apply Hup | apply Hup0]]);
    discriminate.
Qed.

Lemma filter_filter_implies {A : Type} (f g : A -> bool) (l : list A) :
  (forall x, f x = true -> g x = true) ->
  List.filter f (List.filter g l) = List.filter f l.
Proof.
  intros H. induction l as [|a l IH]; [reflexivity|]. simpl.
  destruct (g a) eqn:Hg; simpl.
  - now rewrite IH.
  - destruct (f a) eqn:Hf; [|exact IH]. rewrite (H a Hf) in Hg. discriminate.
Qed.

Lemma ratings_of_completed key records k :
  ratings_of key (List.filter completed records) k = ratings_of key records k.
Proof.
  unfold ratings_of. f_equal. apply filter_filter_implies.
  intros w H. now destruct (completed w).
Qed.

(** Records that are not marked completed have no influence on the
    ranking: the scorer returns the same list with or without them. *)
Theorem uncompleted_records_ignored (exs : list Exercise) (preferred_types : list string)
    (fitness_level : string) (records : list WorkoutRecord) :
  _apply_user_preferences exs preferred_types fitness_level (map PyDict records)
  = _apply_user_preferences exs preferred_types fitness_level
      (map PyDict (List.filter completed records)).
Proof.
  unfold _apply_user_preferences. destruct exs as [|e exs]; [reflexivity|].
  destruct (analyse_history_tables records [] (∅, ∅)) as [[ts ins] [H1 [Ht Hi]]];
    try (intros k; simpl; now rewrite lookup_empty).
  destruct (analyse_history_tables (List.filter completed records) [] (∅, ∅))
    as [[ts' ins'] [H2 [Ht' Hi']]];
    try (intros k; simpl; now rewrite lookup_empty).
  simpl in Ht, Hi, Ht', Hi'.
  assert (Hts : ts' = ts).
  { apply map_eq. intros k. now rewrite (Ht k), (Ht' k), ratings_of_completed. }
  assert (Hins : ins' = ins).
  { apply map_eq. intros k. now rewrite (Hi k), (Hi' k), ratings_of_completed. }
  rewrite H1, H2, Hts, Hins. reflexivity.
Qed.

(** ** More on the safety and availability filter *)

Lemma filter_injury_In exs injuries e :
  In e (_filter_exercises_by_injury exs injuries) <-> In e exs /\ conflict injuries e = false.
Proof.
  unfold _filter_exercises_by_injury. rewrite filter_In, negb_true_iff. reflexivity.
Qed.

Lemma filter_equipment_In exs equipment e :
  In e (_filter_exercises_by_equipment exs equipment) <->
  In e exs /\ (equipment_needed e = [] \/ has_equipment equipment e = true).
Proof.
  unfold _filter_exercises_by_equipment, no_equipment. rewrite filter_In.
  destruct (equipment_needed e) eqn:He; split; intros [H1 H2]; split; auto.
  destruct H2 as [H2|H2]; [discriminate | exact H2].
Qed.

(** As long as the equipment pass leaves something, the candidates are
    catalog exercises in catalog order, none of them restricted for an
    injury of the user, each needing no equipment or an item the user
    owns. *)
Theorem candidates_without_fallback (catalog : list Exercise)
    (injuries equipment : list string) :
  _filter_exercises_by_equipment (_filter_exercises_by_injury catalog injuries) equipment
    <> [] ->
  candidate_exercises catalog injuries equipment `sublist_of` catalog
  /\ forall e, In e (candidate_exercises catalog injuries equipment) ->
       (forall r, In r (injury_restrictions e) -> ~ In r injuries)
       /\ (equipment_needed e = []
           \/ exists item, In item (equipment_needed e) /\ In item equipment).
Proof.
  intros Hne.
  assert (Hc : candidate_exercises catalog injuries equipment
               = _filter_exercises_by_equipment
                   (_filter_exercises_by_injury catalog injuries) equipment).
  { unfold candidate_exercises. now destruct (_filter_exercises_by_equipment _ _). }
  rewrite Hc. split.
  - etransitivity; apply filter_sublist.
  - intros e He. apply filter_equipment_In in He as [He Heq].
    apply filter_injury_In in He as [_ Hcf]. split.
    + intros r Hr Hi. assert (conflict injuries e = true); [|congruence].
      apply conflict_spec. now exists r.
    + destruct Heq as [Heq|Heq]; [now left | right].
      unfold has_equipment in Heq. apply existsb_exists in Heq as [item [H1 H2]].
      exists item. split; [exact H1 | now apply str_in_In].
Qed.

Lemma candidates_without_fallback_witness :
  _filter_exercises_by_equipment
    (_filter_exercises_by_injury default_exercises ["Knee Injury"]) ["Dumbbells"] <> []
  /\ candidate_exercises default_exercises ["Knee Injury"] ["Dumbbells"]
       `sublist_of` default_exercises
  /\ forall e, In e (candidate_exercises default_exercises ["Knee Injury"] ["Dumbbells"]) ->
       (forall r, In r (injury_restrictions e) -> ~ In r ["Knee Injury"])
       /\ (equipment_needed e = []
           \/ exists item, In item (equipment_needed e) /\ In item ["Dumbbells"]).
Proof.
  assert (H : _filter_exercises_by_equipment
                (_filter_exercises_by_injury default_exercises ["Knee Injury"])
                ["Dumbbells"] <> []) by (vm_compute; discriminate).
  split; [exact H|].
  exact (candidates_without_fallback default_exercises ["Knee Injury"] ["Dumbbells"] H).
Defined.

(** A catalog exercise that is safe for the user and needs no equipment
    is always among the candidates, and then the fallback does not fire:
    every candidate is safe. *)
Theorem safe_bodyweight_exercise_is_candidate (catalog : list Exercise)
    (injuries equipment : list string) (e : Exercise) :
  In e catalog -> conflict injuries e = false -> equipment_needed e = [] ->
  In e (candidate_exercises catalog injuries equipment)
  /\ forall x, In x (candidate_exercises catalog injuries equipment) ->
               conflict injuries x = false.
Proof.
  intros Hin Hc He.
  assert (Hav : In e (_filter_exercises_by_equipment
                        (_filter_exercises_by_injury catalog injuries) equipment)).
  { apply filter_equipment_In. split; [now apply filter_injury_In | now left]. }
  unfold candidate_exercises.
  destruct (_filter_exercises_by_equipment _ equipment) as [|a l] eqn:Hf; [contradiction|].
  split; [exact Hav|]. intros x Hx. rewrite <- Hf in Hx.
  apply filter_equipment_In in Hx as [Hx _]. now apply filter_injury_In in Hx.
Qed.

Lemma safe_bodyweight_exercise_is_candidate_witness :
  In (List.nth 5 default_exercises jump_squats)
     [barbell_squat; jump_squats; List.nth 5 default_exercises jump_squats]
  /\ conflict ["Knee Injury"] (List.nth 5 default_exercises jump_squats) = false
  /\ equipment_needed (List.nth 5 default_exercises jump_squats) = []
  /\ In (List.nth 5 default_exercises jump_squats)
        (candidate_exercises
           [barbell_squat; jump_squats; List.nth 5 default_exercises jump_squats]
           ["Knee Injury"] ["Dumbbells"]).
Proof.
  assert (H1 : In (List.nth 5 default_exercises jump_squats)
                 [barbell_squat; jump_squats; List.nth 5 default_exercises jump_squats])
    by (right; right; left; reflexivity).
  split; [exact H1|]. split; [reflexivity|]. split; [reflexivity|].
  exact (proj1 (safe_bodyweight_exercise_is_candidate
                  [barbell_squat; jump_squats; List.nth 5 default_exercises jump_squats]
                  ["Knee Injury"] ["Dumbbells"] (List.nth 5 default_exercises jump_squats)
                  H1 eq_refl eq_refl)).
Defined.

(** ** Dictionaries with distinct keys *)

Lemma dict_get_set (d : pydict) (k k' : string) (v : sval) :
  dict_get (dict_set d k v) k' = if String.eqb k' k then Some v else dict_get d k'.
Proof.
  induction d as [|[k0 v0] d IH]; simpl.
  - destruct (String.eqb k' k); reflexivity.
  - destruct (String.eqb k k0) eqn:E; simpl.
    + apply String.eqb_eq in E. subst k0. destruct (String.eqb k' k); reflexivity.
    + destruct (String.eqb k' k0) eqn:E'; [|exact IH].
      apply String.eqb_eq in E'. subst k0.
      rewrite String.eqb_sym in E. now rewrite E.
Qed.

Lemma dict_set_keys (d : pydict) (k : string) (v : sval) :
  map fst (dict_set d k v) = if dict_has d k then map fst d else map fst d ++ [k].
Proof.
  unfold dict_has. induction d as [|[k0 v0] d IH]; simpl; [reflexivity|].
  destruct (String.eqb k k0) eqn:E; simpl; [reflexivity|].
  rewrite IH. now destruct (dict_get d k).
Qed.

Lemma dict_has_In (d : pydict) (k : string) : dict_has d k = true <-> In k (map fst d).
Proof.
  unfold dict_has. induction d as [|[k0 v0] d IH]; simpl; [split; [discriminate | tauto]|].
  destruct (String.eqb k k0) eqn:E.
  - apply String.eqb_eq in E. subst. split; [now left | reflexivity].
  - apply String.eqb_neq in E. rewrite IH. split; [now right|].
    intros [H|H]; [congruence | exact H].
Qed.

Lemma dict_set_NoDup (d : pydict) (k : string) (v : sval) :
  NoDup (map fst d) -> NoDup (map fst (dict_set d k v)).
Proof.
  intros H. rewrite dict_set_keys. destruct (dict_has d k) eqn:E; [exact H|].
  apply NoDup_app. split; [exact H|]. split; [|apply NoDup_singleton].
  intros x Hx Hk. apply list_elem_of_singleton in Hk. subst x.
  apply list_elem_of_In, dict_has_In in Hx. congruence.
Qed.

Lemma dict_set_middle (l1 l2 : pydict) (k : string) (v0 v : sval) :
  ~ In k (map fst l1) ->
  dict_set (l1 ++ (k, v0) :: l2) k v = l1 ++ (k, v) :: l2.
Proof.
  induction l1 as [|[k1 v1] l1 IH]; simpl; intros Hk.
  - now rewrite String.eqb_refl.
  - destruct (String.eqb k k1) eqn:E.
    + apply String.eqb_eq in E. subst. exfalso. apply Hk. now left.
    + f_equal. apply IH. tauto.
Qed.

(** ** 4.5: the adapter *)

Lemma adapt_day_retype (preferred_types : list string) (l1 l2 : pydict)
    (item : string * sval) :
  ~ In (fst item) (map fst l1) ->
  adapt_day preferred_types (l1 ++ item :: l2) item
  = l1 ++ retype preferred_types item :: l2.
Proof.
  destruct item as [day w]. intros Hk. unfold adapt_day, retype. cbn [fst snd] in *.
  destruct (sval_is w "Rest" || sval_is w "Active Recovery"); [reflexivity|].
  destruct (str_in "HIIT" preferred_types && str_in day ["Tuesday"; "Thursday"]);
    [now apply dict_set_middle|].
  destruct (str_in "Strength" preferred_types && str_in day ["Monday"; "Friday"]);
    [now apply dict_set_middle|].
  destruct (str_in "Core" preferred_types && sval_is w "Strength");
    [now apply dict_set_middle | reflexivity].
Qed.

Lemma retype_key (preferred_types : list string) (item : string * sval) :
  fst (retype preferred_types item) = fst item.
Proof. reflexivity. Qed.

Lemma adapt_loop_from (preferred_types : list string) :
  forall (items done : pydict),
    NoDup (map fst (done ++ items)) ->
    fold_left (adapt_day preferred_types) items (map (retype preferred_types) done ++ items)
    = map (retype preferred_types) (done ++ items).
Proof.
  induction items as [|item items IH]; intros done Hnd; simpl.
  - now rewrite !app_nil_r.
  - rewrite adapt_day_retype.
    + replace (map (retype preferred_types) done ++ retype preferred_types item :: items)
        with (map (retype preferred_types) (done ++ [item]) ++ items)
        by (rewrite map_app, <- app_assoc; reflexivity).
      replace (done ++ item :: items) with ((done ++ [item]) ++ items) in *
        by (rewrite <- app_assoc; reflexivity).
      now apply IH.
    + rewrite map_map. rewrite (map_ext _ fst) by (intros a; apply retype_key).
      rewrite map_app in Hnd. apply NoDup_app in Hnd as [_ [Hd _]].
      intros Hin. apply (Hd (fst item)); [now apply list_elem_of_In|].
      simpl. apply list_elem_of_here.
Qed.

Lemma retype_rest (preferred_types : list string) (item : string * sval) :
  sval_is (snd (retype preferred_types item)) "Rest" = sval_is (snd item) "Rest".
Proof.
  destruct item as [day w]. unfold retype. cbn [fst snd].
  destruct (sval_is w "Rest") eqn:Hw; [exact Hw|]. cbn [orb].
  repeat match goal with
         | |- context [if ?c then _ else _] => destruct c
         end; try reflexivity; exact Hw.
Qed.

Lemma rest_days_retype (preferred_types : list string) (d : pydict) :
  rest_days (map (retype preferred_types) d) = rest_days d.
Proof.
  unfold rest_days. induction d as [|item d IH]; [reflexivity|].
  cbn [map List.filter]. rewrite retype_rest.
  destruct (sval_is (snd item) "Rest"); cbn [map]; now rewrite IH.
Qed.

Lemma adapt_structure_retype (preferred_types : list string) (fitness_level : string)
    (structure : pydict) :
  NoDup (map fst structure) ->
  adapt_structure preferred_types fitness_level structure
  = map (retype preferred_types) (adapt_level fitness_level structure)
  /\ map fst (adapt_structure preferred_types fitness_level structure)
     = map fst (adapt_level fitness_level structure)
  /\ rest_days (adapt_structure preferred_types fitness_level structure)
     = rest_days (adapt_level fitness_level structure).
Proof.
  intros Hnd.
  assert (Hl : NoDup (map fst (adapt_level fitness_level structure))).
  { unfold adapt_level.
    destruct (String.eqb fitness_level "Beginner").
    - destruct (_ <? 2)%nat; [now apply dict_set_NoDup | exact Hnd].
    - destruct (String.eqb fitness_level "Advanced"); [|exact Hnd].
      destruct (1 <? _)%nat; [|exact Hnd].
      generalize (removelast (rest_days structure)). intros ks.
      revert structure Hnd. induction ks as [|k ks IH]; intros s Hs; [exact Hs|].
      simpl. apply IH. now apply dict_set_NoDup. }
  assert (Heq : adapt_structure preferred_types fitness_level structure
                = map (retype preferred_types) (adapt_level fitness_level structure)).
  { unfold adapt_structure. cbv zeta.
    exact (adapt_loop_from preferred_types (adapt_level fitness_level structure) [] Hl). }
  split; [exact Heq|]. rewrite Heq. split.
  - rewrite map_map. apply map_ext. intros a. apply retype_key.
  - apply rest_days_retype.
Qed.

(** In a dictionary (the keys are distinct) the preference loop, which
    writes the dictionary it iterates over, comes to the same as
    retyping every day on its own: the days keep their order, and a day
    that is Rest or Active Recovery when the loop starts is left as it
    is. *)
Theorem adapter_retypes_each_day (preferred_types : list string) (fitness_level : string)
    (structure : pydict) :
  NoDup (map fst structure) ->
  let leveled := adapt_level fitness_level structure in
  let adapted := adapt_structure preferred_types fitness_level structure in
  adapted = map (retype preferred_types) leveled
  /\ map fst adapted = map fst leveled
  /\ (forall day w, In (day, w) leveled ->
        w = SStr "Rest" \/ w = SStr "Active Recovery" -> In (day, w) adapted).
Proof.
  intros Hnd leveled adapted.
  destruct (adapt_structure_retype preferred_types fitness_level structure Hnd)
    as [Heq [Hkeys _]].
  fold adapted leveled in Heq, Hkeys. split; [exact Heq|]. split; [exact Hkeys|].
  intros day w Hin Hw. rewrite Heq. apply in_map_iff. exists (day, w).
  split; [|exact Hin]. destruct Hw as [-> | ->]; reflexivity.
Qed.

Lemma adapter_retypes_each_day_witness :
  NoDup (map fst default_structure)
  /\ adapt_structure ["Core"] "Advanced" default_structure
     = map (retype ["Core"]) (adapt_level "Advanced" default_structure).
Proof.
  assert (H : NoDup (map fst default_structure))
    by (apply (bool_decide_unpack _); vm_compute; exact I).
  split; [exact H|].
  exact (proj1 (adapter_retypes_each_day ["Core"] "Advanced" default_structure H)).
Defined.

Lemma rest_days_In (d : pydict) (k : string) (v : sval) :
  dict_get d k = Some v -> sval_is v "Rest" = true -> In k (rest_days d).
Proof.
  unfold rest_days. induction d as [|[k0 v0] d IH]; simpl; [discriminate|].
  destruct (String.eqb k k0) eqn:E.
  - apply String.eqb_eq in E. subst k0. intros [= ->] ->. now left.
  - intros H1 H2. specialize (IH H1 H2). destruct (sval_is v0 "Rest"); [now right | exact IH].
Qed.



(** An adapted week for a Beginner has a Rest day: with fewer than two
    Rest days to start with, Wednesday is made one; with two or more, the
    Rest days are the ones of the template. *)
Theorem beginner_week_has_rest (preferred_types : list string) (structure : pydict) :
  NoDup (map fst structure) ->
  let adapted := adapt_structure preferred_types "Beginner" structure in
  1 <= length (rest_days adapted)
  /\ (length (rest_days structure) < 2 -> In "Wednesday" (rest_days adapted))
  /\ (2 <= length (rest_days structure) -> rest_days adapted = rest_days structure).
Proof.
  intros Hnd adapted.
  destruct (adapt_structure_retype preferred_types "Beginner" structure Hnd)
    as [_ [_ Hr]].
  fold adapted in Hr. rewrite Hr. unfold adapt_level. cbn [String.eqb Ascii.eqb Bool.eqb].
  destruct (length (rest_days structure) <? 2)%nat eqn:E.
  - apply Nat.ltb_lt in E.
    assert (Hw : In "Wednesday" (rest_days (dict_set structure "Wednesday" (SStr "Rest")))).
    { apply (rest_days_In _ _ (SStr "Rest")); [|reflexivity].
      rewrite dict_get_set. now rewrite String.eqb_refl. }
    split; [|split; [intros _; exact Hw | lia]].
    destruct (rest_days (dict_set structure "Wednesday" (SStr "Rest")));
      [contradiction | simpl; lia].
  - apply Nat.ltb_ge in E. split; [lia|]. split; [lia | reflexivity].
Qed.

Lemma beginner_week_has_rest_witness :
  NoDup (map fst default_structure)
  /\ 1 <= length (rest_days (adapt_structure [] "Beginner" default_structure))
  /\ (length (rest_days default_structure) < 2 ->
      In "Wednesday" (rest_days (adapt_structure [] "Beginner" default_structure)))
  /\ (2 <= length (rest_days default_structure) ->
      rest_days (adapt_structure [] "Beginner" default_structure)
      = rest_days default_structure).
Proof.
  assert (H : NoDup (map fst default_structure))
    by (apply (bool_decide_unpack _); vm_compute; exact I).
  split; [exact H|].
  exact (beginner_week_has_rest [] default_structure H).
Defined.






(** ** 4.4: the resolver *)

Lemma find_last_match {A : Type} (f : A -> bool) (before after : list A) (t : A) :
  f t = true -> (forall x, In x after -> f x = false) ->
  List.find f (rev (before ++ t :: after)) = Some t.
Proof.
  intros Ht Hafter. rewrite rev_app_distr. simpl. rewrite <- app_assoc. simpl.
  assert (H : forall x, In x (rev after) -> f x = false).
  { intros x Hx. apply Hafter. now apply in_rev. }
  induction (rev after) as [|a l IH]; simpl.
  - now rewrite Ht.
  - rewrite (H a (or_introl eq_refl)). apply IH. intros x Hx. apply H. now right.
Qed.

Lemma find_none_iff {A : Type} (f : A -> bool) (l : list A) :
  List.find f l = None <-> forall x, In x l -> f x = false.
Proof.
  induction l as [|a l IH]; simpl; [split; [intros _ x [] | reflexivity]|].
  destruct (f a) eqn:Ha; split.
  - discriminate.
  - intros H. specialize (H a (or_introl eq_refl)). congruence.
  - intros H x [<-|Hx]; [exact Ha | now apply IH].
  - intros H. apply IH. intros x Hx. apply H. now right.
Qed.

Lemma resolver_structure (ts : list Template) (h : list pydict) (goal : string) :
  let r := _get_workout_template ts h goal in
  snd r = h ++ [default_structure]
  /\ exists structure,
       deref (snd r) (t_structure (fst r)) = Some structure
       /\ existsb (dict_has structure) ["Monday"; "Tuesday"; "Wednesday"] = true.
Proof.
  cbv zeta. unfold _get_workout_template. cbv zeta. cbn [fst snd].
  split; [reflexivity|].
  set (chosen := match find_goal ts goal with
                 | Some t => t
                 | None => match find_goal ts "General Fitness" with
                           | Some t => t
                           | None => {| t_goal := "General Fitness";
                                        t_structure := Ref (length h) |}
                           end
                 end).
  assert (Hd : deref (h ++ [default_structure]) (Ref (length h)) = Some default_structure).
  { simpl. rewrite lookup_app_r by lia. now rewrite Nat.sub_diag. }
  destruct (deref (h ++ [default_structure]) (t_structure chosen)) as [structure|] eqn:E.
  - destruct (existsb (dict_has structure) ["Monday"; "Tuesday"; "Wednesday"]) eqn:Hk.
    + exists structure. split; [exact E | exact Hk].
    + exists default_structure. split; [exact Hd | reflexivity].
  - exists default_structure. split; [exact Hd | reflexivity].
Qed.

(** The resolver changes no dictionary of the heap: it adds one, the
    built-in week.  The template it returns always refers to a
    dictionary that has Monday, Tuesday or Wednesday among its keys, so
    a frequency table never leaves the resolver. *)
Theorem resolver_postcondition (ts : list Template) (h : list pydict) (goal : string) :
  let r := _get_workout_template ts h goal in
  length (snd r) = S (length h)
  /\ (forall l, l < length h -> snd r !! l = h !! l)
  /\ exists structure,
       deref (snd r) (t_structure (fst r)) = Some structure
       /\ existsb (dict_has structure) ["Monday"; "Tuesday"; "Wednesday"] = true
       /\ existsb (dict_has structure) week_days = true.
Proof.
  cbv zeta. destruct (resolver_structure ts h goal) as [Hh [structure [Hd Hk]]].
  rewrite Hh. split; [rewrite length_app; simpl; lia|].
  split; [intros l Hl; now apply lookup_app_l|].
  exists structure. split; [exact Hd|]. split; [exact Hk|].
  apply existsb_exists in Hk as [k [Hin Hhas]]. apply existsb_exists. exists k.
  split; [|exact Hhas]. simpl in Hin. unfold week_days. simpl. tauto.
Qed.

(** Of several templates for the goal the last one of the repository is
    taken.  It is returned as it is when its structure is keyed by days;
    when its structure is a frequency table (or no dictionary at all) it
    is returned with the built-in week in its place. *)
Theorem resolver_last_match (before after : list Template) (t : Template)
    (h : list pydict) (goal : string) :
  t_goal t = goal ->
  (forall x, In x after -> t_goal x <> goal) ->
  let r := _get_workout_template (before ++ t :: after) h goal in
  t_goal (fst r) = goal
  /\ (forall structure,
        deref h (t_structure t) = Some structure ->
        existsb (dict_has structure) ["Monday"; "Tuesday"; "Wednesday"] = true ->
        fst r = t)
  /\ (forall structure,
        deref h (t_structure t) = Some structure ->
        existsb (dict_has structure) ["Monday"; "Tuesday"; "Wednesday"] = false ->
        deref (snd r) (t_structure (fst r)) = Some default_structure)
  /\ (t_structure t = NotADict ->
      deref (snd r) (t_structure (fst r)) = Some default_structure).
Proof.
  intros Hg Hafter. cbv zeta. unfold _get_workout_template. cbv zeta. cbn [fst snd].
  assert (Hfind : find_goal (before ++ t :: after) goal = Some t).
  { unfold find_goal. apply find_last_match; [now apply String.eqb_eq|].
    intros x Hx. apply String.eqb_neq. now apply Hafter. }
  rewrite Hfind.
  assert (Hd : deref (h ++ [default_structure]) (Ref (length h)) = Some default_structure).
  { simpl. rewrite lookup_app_r by lia. now rewrite Nat.sub_diag. }
  assert (Hold : forall structure, deref h (t_structure t) = Some structure ->
                   deref (h ++ [default_structure]) (t_structure t) = Some structure).
  { intros structure Hs. destruct (t_structure t) as [l|]; [|discriminate].
    simpl in *. rewrite lookup_app_l; [exact Hs|]. now apply lookup_lt_Some in Hs. }
  split; [|split; [|split]].
  - destruct (deref (h ++ [default_structure]) (t_structure t)) as [s|]; [|exact Hg].
    destruct (existsb _ _); exact Hg.
  - intros structure Hs Hk. rewrite (Hold _ Hs), Hk. reflexivity.
  - intros structure Hs Hk. rewrite (Hold _ Hs), Hk. exact Hd.
  - intros Hn. rewrite Hn. exact Hd.
Qed.

Lemma resolver_last_match_witness :
  t_goal {| t_goal := "Endurance"; t_structure := Ref 1 |} = "Endurance"
  /\ (forall x, In x [{| t_goal := "General Fitness"; t_structure := Ref 0 |}] ->
                t_goal x <> "Endurance")
  /\ deref (snd (_get_workout_template
                   [ {| t_goal := "Endurance"; t_structure := Ref 0 |};
                     {| t_goal := "Endurance"; t_structure := Ref 1 |};
                     {| t_goal := "General Fitness"; t_structure := Ref 0 |} ]
                   [default_structure; [("Cardio", SInt 3); ("Circuit", SInt 2)]]
                   "Endurance"))
       (t_structure
          (fst (_get_workout_template
                  [ {| t_goal := "Endurance"; t_structure := Ref 0 |};
                    {| t_goal := "Endurance"; t_structure := Ref 1 |};
                    {| t_goal := "General Fitness"; t_structure := Ref 0 |} ]
                  [default_structure; [("Cardio", SInt 3); ("Circuit", SInt 2)]]
                  "Endurance")))
     = Some default_structure.
Proof.
  assert (H1 : t_goal {| t_goal := "Endurance"; t_structure := Ref 1 |} = "Endurance")
    by reflexivity.
  assert (H2 : forall x, In x [{| t_goal := "General Fitness"; t_structure := Ref 0 |}] ->
                         t_goal x <> "Endurance").
  { intros x [<-|[]]. discriminate. }
  split; [exact H1|]. split; [exact H2|].
  exact (proj1 (proj2 (proj2 (resolver_last_match
                  [ {| t_goal := "Endurance"; t_structure := Ref 0 |} ]
                  [ {| t_goal := "General Fitness"; t_structure := Ref 0 |} ]
                  {| t_goal := "Endurance"; t_structure := Ref 1 |}
                  [default_structure; [("Cardio", SInt 3); ("Circuit", SInt 2)]]
                  "Endurance" H1 H2)))
           [("Cardio", SInt 3); ("Circuit", SInt 2)] eq_refl eq_refl).
Defined.

(** A goal no template has is served by the last General Fitness
    template; without one, by the built-in week under the goal General
    Fitness. *)
Theorem resolver_unknown_goal (ts : list Template) (h : list pydict) (goal : string) :
  (forall x, In x ts -> t_goal x <> goal) ->
  let r := _get_workout_template ts h goal in
  t_goal (fst r) = "General Fitness"
  /\ fst r = fst (_get_workout_template ts h "General Fitness")
  /\ ((forall x, In x ts -> t_goal x <> "General Fitness") ->
      fst r = {| t_goal := "General Fitness"; t_structure := Ref (length h) |}
      /\ deref (snd r) (t_structure (fst r)) = Some default_structure).
Proof.
  intros Hno. cbv zeta. unfold _get_workout_template. cbv zeta. cbn [fst snd].
  assert (Hfind : find_goal ts goal = None).
  { unfold find_goal. apply find_none_iff. intros x Hx. apply String.eqb_neq.
    apply Hno. now apply in_rev. }
  rewrite Hfind.
  assert (Hd : deref (h ++ [default_structure]) (Ref (length h)) = Some default_structure).
  { simpl. rewrite lookup_app_r by lia. now rewrite Nat.sub_diag. }
  split; [|split].
  - destruct (find_goal ts "General Fitness") as [t|] eqn:E.
    + assert (Ht : t_goal t = "General Fitness").
      { unfold find_goal in E. apply find_some in E as [_ E]. now apply String.eqb_eq. }
      destruct (deref (h ++ [default_structure]) (t_structure t)) as [s|]; [|exact Ht].
      destruct (existsb _ _); exact Ht.
    + cbn [t_structure]. rewrite Hd. reflexivity.
  - destruct (find_goal ts "General Fitness") as [t|]; reflexivity.
  - intros Hgf.
    assert (Hfind' : find_goal ts "General Fitness" = None).
    { unfold find_goal. apply find_none_iff. intros x Hx. apply String.eqb_neq.
      apply Hgf. now apply in_rev. }
    rewrite Hfind'. cbn [t_structure]. rewrite Hd. split; [reflexivity | exact Hd].
Qed.

Lemma resolver_unknown_goal_witness :
  (forall x, In x [] -> t_goal x <> "Anything")
  /\ fst (_get_workout_template [] [] "Anything")
     = {| t_goal := "General Fitness"; t_structure := Ref 0 |}
  /\ deref (snd (_get_workout_template [] [] "Anything"))
       (t_structure (fst (_get_workout_template [] [] "Anything")))
     = Some default_structure.
Proof.
  assert (H : forall x : Template, In x [] -> t_goal x <> "Anything") by (intros x []).
  assert (H' : forall x : Template, In x [] -> t_goal x <> "General Fitness")
    by (intros x []).
  split; [exact H|].
  exact (proj2 (proj2 (resolver_unknown_goal [] [] "Anything" H)) H').
Defined.

(** ** 4.8: how a returned plan is built *)

(** The guarded block succeeds exactly when the scorer does; its results
    are then the balanced groups of the ranked candidates and the
    resolved template, whose structure has been adapted in the heap. *)
Lemma guarded_stages_scored eng user past preferred :
  _apply_user_preferences
    (candidate_exercises (exercises eng) (injuries user) (equipment user))
    (preferred_workouts user) (fitness_level user) past = Ok preferred ->
  exists tpl l structure,
    fst (_get_workout_template (templates eng) (heap eng) (goal user)) = tpl
    /\ t_structure tpl = Ref l
    /\ (heap eng ++ [default_structure]) !! l = Some structure
    /\ existsb (dict_has structure) ["Monday"; "Tuesday"; "Wednesday"] = true
    /\ guarded_stages eng user past
       = (Ok {| balanced_exercises :=
                  _balance_muscle_groups (_categorize_exercises preferred);
                template := tpl; adapted_template := Some tpl |},
          <[l := adapt_structure (preferred_workouts user) (fitness_level user) structure]>
            (heap eng ++ [default_structure])).
Proof.
  intros Hs. unfold guarded_stages. rewrite Hs.
  destruct (resolver_structure (templates eng) (heap eng) (goal user))
    as [Hh [structure [Hd Hk]]].
  destruct (_get_workout_template (templates eng) (heap eng) (goal user)) as [tpl h1].
  cbn [fst snd] in *. subst h1.
  destruct (t_structure tpl) as [l|] eqn:Ht; [|discriminate].
  simpl in Hd. exists tpl, l, structure.
  split; [reflexivity|]. split; [exact Ht|]. split; [exact Hd|]. split; [exact Hk|].
  unfold _adapt_template_to_preferences. rewrite Ht, Hd. reflexivity.
Qed.

Lemma returned_plan_build eng user last_workout g plan :
  returned (generate_workout_plan eng user last_workout g) = Ok plan ->
  exists lw past preferred tpl l structure,
    last_workout = Some lw
    /\ past_workouts user = Some past
    /\ _apply_user_preferences
         (candidate_exercises (exercises eng) (injuries user) (equipment user))
         (preferred_workouts user) (fitness_level user) (past ++ [lw]) = Ok preferred
    /\ fst (_get_workout_template (templates eng) (heap eng) (goal user)) = tpl
    /\ t_structure tpl = Ref l
    /\ (heap eng ++ [default_structure]) !! l = Some structure
    /\ existsb (dict_has structure) ["Monday"; "Tuesday"; "Wednesday"] = true
    /\ heap (engine_after (generate_workout_plan eng user last_workout g))
       = <[l := adapt_structure (preferred_workouts user) (fitness_level user) structure]>
           (heap eng ++ [default_structure])
    /\ days plan
       = fst (_generate_weekly_plan
                (_balance_muscle_groups (_categorize_exercises preferred))
                (adapt_structure (preferred_workouts user) (fitness_level user) structure)
                (_generate_progressive_parameters (fitness_level user) (goal user))
                (injuries user) g).
Proof.
  destruct last_workout as [lw|]; [|discriminate].
  destruct (past_workouts user) as [past|] eqn:Hp.
  2:{ unfold generate_workout_plan. rewrite Hp. discriminate. }
  rewrite (returned_after_stages eng user lw past g Hp).
  rewrite (engine_after_heap eng user lw past g Hp). cbv zeta.
  set (user' := with_history user (past ++ [lw])).
  destruct (_apply_user_preferences
              (candidate_exercises (exercises eng) (injuries user') (equipment user'))
              (preferred_workouts user') (fitness_level user') (past ++ [lw]))
    as [preferred|e] eqn:Hs.
  - destruct (guarded_stages_scored eng user' (past ++ [lw]) preferred Hs)
      as [tpl [l [structure [Ht [Hl [Hd [Hk Hg]]]]]]].
    rewrite Hg. intros H. apply assemble_ok in H as [a [Ha Hdays]].
    cbn [adapted_template balanced_exercises] in Ha, Hdays. injection Ha as <-.
    exists lw, past, preferred, tpl, l, structure.
    repeat (split; [first [reflexivity | assumption]|]).
    rewrite Hdays, Hl. cbn [deref]. rewrite list_lookup_insert_eq.
    + reflexivity.
    + now apply lookup_lt_Some in Hd.
  - unfold guarded_stages. fold user'. rewrite Hs. destruct e; discriminate.
Qed.

Lemma dict_set_keeps_key (d : pydict) (k k' : string) (v : sval) :
  In k' (map fst d) -> In k' (map fst (dict_set d k v)).
Proof.
  intros H. rewrite dict_set_keys. destruct (dict_has d k); [exact H|].
  apply in_or_app. now left.
Qed.

Lemma adapt_structure_keeps_key (preferred_types : list string) (fitness_level : string)
    (structure : pydict) (k : string) :
  In k (map fst structure) ->
  In k (map fst (adapt_structure preferred_types fitness_level structure)).
Proof.
  intros Hk. unfold adapt_structure. cbv zeta.
  assert (Hl : In k (map fst (adapt_level fitness_level structure))).
  { unfold adapt_level.
    destruct (String.eqb fitness_level "Beginner").
    - destruct (_ <? 2)%nat; [now apply dict_set_keeps_key | exact Hk].
    - destruct (String.eqb fitness_level "Advanced"); [|exact Hk].
      destruct (1 <? _)%nat; [|exact Hk].
      generalize (removelast (rest_days structure)). intros ks.
      revert structure Hk. induction ks as [|k0 ks IH]; intros s Hs; [exact Hs|].
      simpl. apply IH. now apply dict_set_keeps_key. }
  revert Hl. generalize (adapt_level fitness_level structure) at 1 3.
  generalize (adapt_level fitness_level structure).
  intros items. induction items as [|item items IH]; intros st Hst; [exact Hst|].
  simpl. apply IH. unfold adapt_day.
  repeat match goal with
         | |- context [if ?c then _ else _] => destruct c
         end; try exact Hst; now apply dict_set_keeps_key.
Qed.

Lemma plan_day_type ebt params injuries workout_type g :
  d_type (fst (plan_day ebt params injuries workout_type g)) = workout_type.
Proof.
  unfold plan_day. destruct workout_type as [w|z]; [|reflexivity].
  destruct (String.eqb w "Rest") eqn:E1; [apply String.eqb_eq in E1; now subst|].
  destruct (String.eqb w "Active Recovery") eqn:E2;
    [apply String.eqb_eq in E2; now subst|].
  now destruct (_select_exercises _ w params injuries g).
Qed.

Lemma plan_days_types ebt params injuries sched ds : forall i g,
  map (fun d => d_type (snd d)) (fst (plan_days ebt params injuries sched i ds g))
  = map (fun j => default (SStr "Rest") (sched !! j)) (seq i (length ds)).
Proof.
  induction ds as [|day ds IH]; intros i g; [reflexivity|].
  rewrite plan_days_cons. simpl. rewrite plan_day_type. f_equal. apply IH.
Qed.



Lemma guarded_stages_heap eng user past :
  let tpl := fst (_get_workout_template (templates eng) (heap eng) (goal user)) in
  forall l, l < length (heap eng) -> Ref l <> t_structure tpl ->
    snd (guarded_stages eng user past) !! l = heap eng !! l.
Proof.
  cbv zeta. intros l Hl Hne.
  destruct (_apply_user_preferences
              (candidate_exercises (exercises eng) (injuries user) (equipment user))
              (preferred_workouts user) (fitness_level user) past) as [preferred|e] eqn:Hs.
  - destruct (guarded_stages_scored eng user past preferred Hs)
      as [tpl [l0 [structure [Ht [Hl0 [_ [_ Hg]]]]]]].
    rewrite Hg. cbn [snd]. rewrite Ht, Hl0 in Hne.
    rewrite list_lookup_insert_ne by congruence. now apply lookup_app_l.
  - unfold guarded_stages. rewrite Hs. reflexivity.
Qed.

(** What a call changes, whatever it returns or raises: the catalog and
    the list of templates stay; of the dictionaries in the heap only the
    structure of the template resolved for the user's goal can change;
    and once the two tests at the start are passed, the last workout is
    appended to the user's history, also when the call fails later. *)
Theorem call_frame (eng : Engine) (user : UserProfile) (last_workout : option pyobj)
    (g : Rng.t) :
  let o := generate_workout_plan eng user last_workout g in
  exercises (engine_after o) = exercises eng
  /\ templates (engine_after o) = templates eng
  /\ (forall l, l < length (heap eng) ->
        Ref l <> t_structure
                   (fst (_get_workout_template (templates eng) (heap eng) (goal user))) ->
        heap (engine_after o) !! l = heap eng !! l)
  /\ user_after o
     = match last_workout, past_workouts user with
       | Some lw, Some past => with_history user (past ++ [lw])
       | _, _ => user
       end.
Proof.
  cbv zeta. destruct last_workout as [lw|]; [|repeat split; reflexivity].
  destruct (past_workouts user) as [past|] eqn:Hp.
  2:{ unfold generate_workout_plan. rewrite Hp. repeat split; reflexivity. }
  assert (Huser : user_after (generate_workout_plan eng user (Some lw) g)
                  = with_history user (past ++ [lw])).
  { unfold generate_workout_plan. rewrite Hp. cbv zeta.
    destruct (guarded_stages _ _ _) as [[s|e] h].
    - now destruct (assemble _ h s g).
    - destruct e; reflexivity. }
  rewrite (engine_after_heap eng user lw past g Hp). cbv zeta.
  pose proof (guarded_stages_heap eng (with_history user (past ++ [lw])) (past ++ [lw]))
    as Hh. cbv zeta in Hh. cbn [goal with_history] in Hh.
  destruct (guarded_stages _ _ _) as [[s|e] h]; cbn [snd] in Hh.
  - repeat split; try reflexivity; [exact Hh | exact Huser].
  - destruct e; (repeat split; try reflexivity; [|exact Huser]); try exact Hh.
    intros l Hl Hne. unfold attribute_fallback, _get_workout_template. cbn [snd heap with_heap].
    rewrite lookup_app_l.
    + now apply Hh.
    + apply lookup_lt_is_Some. rewrite (Hh l Hl Hne). now apply lookup_lt_is_Some.
Qed.

(** ** What a returned plan holds *)

Lemma week_days_seq (sched : list sval) :
  length sched = 7 ->
  map (fun j => default (SStr "Rest") (sched !! j)) (seq 0 (length week_days)) = sched.
Proof.
  intros H. do 8 (destruct sched as [|? sched]; try discriminate). reflexivity.
Qed.

(** The types of the seven days of a returned plan are read off the
    structure of the resolved template as the call leaves it, day name
    by day name (Rest for a day that is no key): the call never expands
    a frequency table and never runs the optimizer. *)
Theorem plan_day_types (eng : Engine) (user : UserProfile) (last_workout : option pyobj)
    (g : Rng.t) (plan : WorkoutPlan) :
  let o := generate_workout_plan eng user last_workout g in
  returned o = Ok plan ->
  exists structure,
    deref (heap (engine_after o))
      (t_structure (fst (_get_workout_template (templates eng) (heap eng) (goal user))))
    = Some structure
    /\ map (fun d => d_type (snd d)) (days plan)
       = map (fun day => default (SStr "Rest") (dict_get structure day)) week_days.
Proof.
  cbv zeta. intros Hr.
  destruct (returned_plan_build eng user last_workout g plan Hr)
    as [lw [past [preferred [tpl [l [s [_ [_ [_ [Ht [Hl [Hs [Hk [Hh Hd]]]]]]]]]]]]]].
  set (adapted := adapt_structure (preferred_workouts user) (fitness_level user) s) in *.
  exists adapted. rewrite Ht, Hl, Hh. cbn [deref]. split.
  { apply list_lookup_insert_eq. now apply lookup_lt_Some in Hs. }
  rewrite Hd. unfold _generate_weekly_plan. rewrite plan_days_types.
  assert (Hday : existsb (dict_has adapted) week_days = true).
  { apply existsb_exists in Hk as [k [Hin Hhas]].
    apply existsb_exists. exists k. split.
    - simpl in Hin. unfold week_days. simpl. tauto.
    - apply dict_has_In. apply adapt_structure_keeps_key. now apply dict_has_In. }
  rewrite week_days_seq.
  - unfold _create_day_schedule. now rewrite Hday.
  - unfold _create_day_schedule. rewrite Hday. now rewrite length_map.
Qed.

Lemma plan_day_types_witness :
  returned (generate_workout_plan default_engine beginner_user (Some cardio_record) [])
    = Ok beginner_plan
  /\ exists structure,
       deref (heap (engine_after
                      (generate_workout_plan default_engine beginner_user
                         (Some cardio_record) [])))
         (t_structure (fst (_get_workout_template (templates default_engine)
                              (heap default_engine) (goal beginner_user))))
       = Some structure
       /\ map (fun d => d_type (snd d)) (days beginner_plan)
          = map (fun day => default (SStr "Rest") (dict_get structure day)) week_days.
Proof.
  assert (H : returned (generate_workout_plan default_engine beginner_user
                          (Some cardio_record) []) = Ok beginner_plan)
    by (vm_compute; reflexivity).
  split; [exact H|].
  exact (plan_day_types default_engine beginner_user (Some cardio_record) []
           beginner_plan H).
Defined.

Lemma balanced_group_members (preferred : list Exercise) (w : string) (x : Exercise) :
  In x (default [] (_balance_muscle_groups (_categorize_exercises preferred) !! w)) ->
  In x preferred /\ category x = w.
Proof.
  unfold _balance_muscle_groups, _categorize_exercises.
  rewrite lookup_fmap, (categorize_fold preferred [] ∅).
  2:{ intros k. now rewrite lookup_empty. }
  simpl. destruct (List.filter _ preferred) as [|a l] eqn:Hf; [intros []|].
  cbn [group_of fmap option_fmap option_map default]. intros Hx.
  assert (Hin : In x (a :: l)).
  { rewrite balance_group_greedy in Hx. apply in_app_or in Hx as [Hx|Hx].
    - exact (greedy_In _ _ _ Hx).
    - now apply filter_In in Hx as [Hx _]. }
  rewrite <- Hf in Hin. apply filter_In in Hin as [Hin Hc].
  split; [exact Hin | now apply String.eqb_eq].
Qed.

Lemma scorer_permutation exs preferred_types fitness_level past out :
  _apply_user_preferences exs preferred_types fitness_level past = Ok out ->
  Permutation exs out.
Proof.
  unfold _apply_user_preferences. destruct exs as [|e exs]; [intros [= <-]; reflexivity|].
  destruct (analyse_history past (∅, ∅)) as [t|]; [|discriminate].
  unfold mbind, result_bind. intros H.
  apply (f_equal (fun r => match r with Ok x => x | Raise _ => [] end)) in H.
  cbv beta iota in H. subst out.
  etransitivity; [|apply Permutation_map, sorted_reverse_perm].
  rewrite map_map. simpl. now rewrite map_id.
Qed.

Lemma core_never_matches (x : Exercise) :
  category x = "Core" -> matches_type "Core" x = false.
Proof.
  unfold category, matches_type. destruct (exercise_type x) as [t|]; simpl.
  - intros ->. reflexivity.
  - discriminate.
Qed.

(** In a returned plan a day has at most three exercises; each of them
    is a candidate exercise (a catalog record that passed the filter)
    whose type is exactly the type of the day, the synonyms of the
    selector notwithstanding; and a Core day has no exercise at all. *)
Theorem plan_exercises_match_day (eng : Engine) (user : UserProfile)
    (last_workout : option pyobj) (g : Rng.t) (plan : WorkoutPlan)
    (day : string) (entry : DayEntry) :
  returned (generate_workout_plan eng user last_workout g) = Ok plan ->
  In (day, entry) (days plan) ->
  length (d_exercises entry) <= 3
  /\ (d_type entry = SStr "Core" -> d_exercises entry = [])
  /\ forall e, In e (d_exercises entry) ->
       d_type entry = SStr (category (base e))
       /\ In (base e)
            (candidate_exercises (exercises eng) (injuries user) (equipment user)).
Proof.
  intros Hr Hin.
  destruct (returned_plan_build eng user last_workout g plan Hr)
    as [lw [past [preferred [tpl [l [s [_ [_ [Hs [_ [_ [_ [_ [_ Hd]]]]]]]]]]]]]].
  assert (Hperm : forall x, In x preferred ->
            In x (candidate_exercises (exercises eng) (injuries user) (equipment user))).
  { intros x Hx.
    exact (Permutation_in _ (Permutation_sym (scorer_permutation _ _ _ _ _ Hs)) Hx). }
  rewrite Hd in Hin. unfold _generate_weekly_plan in Hin.
  refine (plan_days_all _ _ (injuries user)
            (fun entry =>
               length (d_exercises entry) <= 3
               /\ (d_type entry = SStr "Core" -> d_exercises entry = [])
               /\ forall e, In e (d_exercises entry) ->
                    d_type entry = SStr (category (base e))
                    /\ In (base e) (candidate_exercises (exercises eng) (injuries user)
                                      (equipment user)))
            _ _ _ _ _ day entry Hin).
  clear Hin day entry. intros w g0. unfold plan_day.
  destruct w as [w|z]; [|simpl; split; [lia | split; [reflexivity | intros e []]]].
  destruct (String.eqb w "Rest");
    [simpl; split; [lia | split; [reflexivity | intros e []]]|].
  destruct (String.eqb w "Active Recovery");
    [simpl; split; [lia | split; [reflexivity | intros e []]]|].
  set (ebt := _balance_muscle_groups (_categorize_exercises preferred)).
  set (params := _generate_progressive_parameters (fitness_level user) (goal user)).
  pose proof (select_exercises_In (default [] (ebt !! w)) w params (injuries user) g0)
    as Hsel.
  assert (Hlen : length (fst (_select_exercises (default [] (ebt !! w)) w params
                                (injuries user) g0)) <= 3).
  { unfold _select_exercises. destruct (default [] (ebt !! w)) as [|a av]; [simpl; lia|].
    destruct (List.filter _ (a :: av)) as [|t ts]; [simpl; lia|].
    unfold Rng.randint. destruct (Rng.draw g0) as [d g1].
    destruct (Rng.sample _ (t :: ts) g1) as [sel g2] eqn:Hsam. cbn [fst].
    rewrite length_map.
    assert (Hle : length sel <= Nat.min (2 + d mod (3 - 2 + 1)) (length (t :: ts))).
    { clear -Hsam. revert Hsam. generalize (Nat.min (2 + d mod (3 - 2 + 1)) (length (t :: ts))).
      generalize (t :: ts). intros pop n. revert pop g1 sel g2.
      induction n as [|n IH]; intros pop g1 sel g2 H.
      - injection H as <- _. simpl. lia.
      - destruct pop as [|a pop]; [injection H as <- _; simpl; lia|].
        cbn [Rng.sample] in H. destruct (Rng.draw g1) as [d1 g1'].
        destruct (Rng.sample n _ g1') as [others g2'] eqn:Ho.
        injection H as <- _. simpl. specialize (IH _ _ _ _ Ho). lia. }
    assert (d mod (3 - 2 + 1) < 2) by (apply Nat.mod_upper_bound; discriminate). lia. }
  destruct (_select_exercises (default [] (ebt !! w)) w params (injuries user) g0)
    as [sel g1]. cbn [fst d_type d_exercises] in *.
  assert (Hmem : forall e, In e sel ->
            category (base e) = w /\ matches_type w (base e) = true
            /\ In (base e) (candidate_exercises (exercises eng) (injuries user)
                              (equipment user))).
  { intros e He. destruct (Hsel e He) as [x [Hx [Hm ->]]]. cbn [enhance base].
    apply balanced_group_members in Hx as [Hp Hc]. auto. }
  split; [exact Hlen|]. split.
  - intros [= ->]. destruct sel as [|e sel]; [reflexivity|].
    destruct (Hmem e (or_introl eq_refl)) as [Hc [Hm _]].
    rewrite (core_never_matches _ Hc) in Hm. discriminate.
  - intros e He. destruct (Hmem e He) as [Hc [_ Hcand]]. now rewrite Hc.
Qed.

Lemma plan_exercises_match_day_witness :
  returned (generate_workout_plan default_engine beginner_user (Some cardio_record) [])
    = Ok beginner_plan
  /\ In ("Monday", entry_of beginner_plan "Monday") (days beginner_plan)
  /\ length (d_exercises (entry_of beginner_plan "Monday")) <= 3.
Proof.
  assert (H1 : returned (generate_workout_plan default_engine beginner_user
                           (Some cardio_record) []) = Ok beginner_plan)
    by (vm_compute; reflexivity).
  assert (H2 : In ("Monday", entry_of beginner_plan "Monday") (days beginner_plan))
    by (left; reflexivity).
  split; [exact H1|]. split; [exact H2|].
  exact (proj1 (plan_exercises_match_day default_engine beginner_user (Some cardio_record)
                  [] beginner_plan "Monday" (entry_of beginner_plan "Monday") H1 H2)).
Defined.

(** Where an exercise of a returned plan comes from. *)
Lemma plan_exercise_origin eng user last_workout g plan day entry e :
  returned (generate_workout_plan eng user last_workout g) = Ok plan ->
  In (day, entry) (days plan) ->
  In e (d_exercises entry) ->
  In (base e) (candidate_exercises (exercises eng) (injuries user) (equipment user))
  /\ e = enhance (_generate_progressive_parameters (fitness_level user) (goal user))
           (injuries user) (base e).
Proof.
  intros Hr Hin He.
  destruct (returned_plan_build eng user last_workout g plan Hr)
    as [lw [past [preferred [tpl [l [s [_ [_ [Hs [_ [_ [_ [_ [_ Hd]]]]]]]]]]]]]].
  rewrite Hd in Hin. unfold _generate_weekly_plan in Hin. revert e He.
  refine (plan_days_all _ _ (injuries user)
            (fun entry => forall e, In e (d_exercises entry) -> _)
            _ _ _ _ _ day entry Hin).
  clear Hin day entry. intros w g0 e He. unfold plan_day in He.
  destruct w as [w|z]; [|contradiction].
  destruct (String.eqb w "Rest"); [contradiction|].
  destruct (String.eqb w "Active Recovery"); [contradiction|].
  destruct (_select_exercises _ w _ (injuries user) g0) as [sel g1] eqn:Hsel.
  cbn [fst d_exercises] in He.
  assert (He' : In e (fst (_select_exercises
                             (default [] (_balance_muscle_groups
                                            (_categorize_exercises preferred) !! w))
                             w (_generate_progressive_parameters (fitness_level user)
                                  (goal user))
                             (injuries user) g0))) by now rewrite Hsel.
  apply select_exercises_In in He' as [x [Hx [_ ->]]]. cbn [enhance base].
  split; [|reflexivity].
  apply balanced_group_members in Hx as [Hp _].
  exact (Permutation_in _ (Permutation_sym (scorer_permutation _ _ _ _ _ Hs)) Hp).
Qed.

(** As long as the equipment pass leaves something for the user, no
    exercise of a returned plan is restricted for an injury the user
    has, and each one needs no equipment or an item the user owns. *)
Theorem plan_safe_without_fallback (eng : Engine) (user : UserProfile)
    (last_workout : option pyobj) (g : Rng.t) (plan : WorkoutPlan)
    (day : string) (entry : DayEntry) (e : PlanExercise) :
  returned (generate_workout_plan eng user last_workout g) = Ok plan ->
  _filter_exercises_by_equipment
    (_filter_exercises_by_injury (exercises eng) (injuries user)) (equipment user) <> [] ->
  In (day, entry) (days plan) ->
  In e (d_exercises entry) ->
  In (base e) (exercises eng)
  /\ (forall r, In r (injury_restrictions (base e)) -> ~ In r (injuries user))
  /\ (equipment_needed (base e) = []
      \/ exists item, In item (equipment_needed (base e)) /\ In item (equipment user)).
Proof.
  intros Hr Hne Hin He.
  destruct (plan_exercise_origin _ _ _ _ _ _ _ _ Hr Hin He) as [Hc _].
  unfold candidate_exercises in Hc.
  destruct (_filter_exercises_by_equipment _ (equipment user)) as [|a l] eqn:Hf;
    [congruence|].
  rewrite <- Hf in Hc. apply filter_equipment_In in Hc as [Hc Heq].
  apply filter_injury_In in Hc as [Hcat Hcf].
  split; [exact Hcat|]. split.
  - intros r Hr' Hi. assert (conflict (injuries user) (base e) = true); [|congruence].
    apply conflict_spec. now exists r.
  - destruct Heq as [Heq|Heq]; [now left | right].
    unfold has_equipment in Heq. apply existsb_exists in Heq as [item [H1 H2]].
    exists item. split; [exact H1 | now apply str_in_In].
Qed.

Lemma plan_safe_without_fallback_witness :
  returned (generate_workout_plan default_engine beginner_user (Some cardio_record) [])
    = Ok beginner_plan
  /\ _filter_exercises_by_equipment
       (_filter_exercises_by_injury (exercises default_engine) (injuries beginner_user))
       (equipment beginner_user) <> []
  /\ In ("Monday", entry_of beginner_plan "Monday") (days beginner_plan)
  /\ In squats_in_plan (d_exercises (entry_of beginner_plan "Monday"))
  /\ In (base squats_in_plan) (exercises default_engine).
Proof.
  assert (H1 : returned (generate_workout_plan default_engine beginner_user
                           (Some cardio_record) []) = Ok beginner_plan)
    by (vm_compute; reflexivity).
  assert (H2 : _filter_exercises_by_equipment
                 (_filter_exercises_by_injury (exercises default_engine)
                    (injuries beginner_user))
                 (equipment beginner_user) <> []) by (vm_compute; discriminate).
  assert (H3 : In ("Monday", entry_of beginner_plan "Monday") (days beginner_plan))
    by (left; reflexivity).
  assert (H4 : In squats_in_plan (d_exercises (entry_of beginner_plan "Monday")))
    by (left; reflexivity).
  split; [exact H1|]. split; [exact H2|]. split; [exact H3|]. split; [exact H4|].
  exact (proj1 (plan_safe_without_fallback default_engine beginner_user
                  (Some cardio_record) [] beginner_plan "Monday"
                  (entry_of beginner_plan "Monday") squats_in_plan H1 H2 H3 H4)).
Defined.

(** ** [utils.calculate_similarity] *)

Lemma ratio_range (n m : nat) :
  n <= m -> 0 < m ->
  (0 <= inject_Z (Z.of_nat n) / inject_Z (Z.of_nat m) <= 1)%Q
  /\ ((inject_Z (Z.of_nat n) / inject_Z (Z.of_nat m) == 1)%Q <-> n = m)
  /\ ((inject_Z (Z.of_nat n) / inject_Z (Z.of_nat m) == 0)%Q <-> n = 0).
Proof.
  intros Hle Hm.
  destruct (Z.of_nat m) as [|p|p] eqn:Ep; try lia.
  remember (Z.of_nat n) as a eqn:Ea.
  assert (Ha : (0 <= a <= Z.pos p)%Z) by lia.
  unfold Qle, Qeq, Qdiv, Qmult, Qinv, inject_Z. simpl.
  split; [split; nia|]. split; split; intros H.
  - assert (a = Z.pos p) by nia. lia.
  - assert (a = Z.pos p) by lia. nia.
  - assert (a = 0%Z) by nia. lia.
  - assert (a = 0%Z) by lia. nia.
Qed.

(** The similarity of two tag lists does not depend on the order of the
    arguments, lies between 0 and 1, is 0 exactly when a list is empty
    or the lists share no element, and is 1 exactly when both lists are
    non-empty and hold the same elements. *)
Theorem calculate_similarity_properties (list1 list2 : list string) :
  calculate_similarity list1 list2 = calculate_similarity list2 list1
  /\ (0 <= calculate_similarity list1 list2 <= 1)%Q
  /\ ((calculate_similarity list1 list2 == 0)%Q <->
      list1 = [] \/ list2 = [] \/ forall x, In x list1 -> ~ In x list2)
  /\ ((calculate_similarity list1 list2 == 1)%Q <->
      list1 <> [] /\ forall x, In x list1 <-> In x list2).
Proof.
  unfold calculate_similarity.
  destruct list1 as [|a l1].
  { split; [now destruct list2|]. split; [split; discriminate|]. split.
    - split; [intros _; now left | reflexivity].
    - split; [intros H; discriminate H | intros [H _]; congruence]. }
  destruct list2 as [|b l2].
  { split; [reflexivity|]. split; [split; discriminate|]. split.
    - split; [intros _; right; now left | reflexivity].
    - split; [intros H; discriminate H|].
      intros [_ H]. destruct (proj1 (H a) (or_introl eq_refl)). }
  set (L1 := a :: l1). set (L2 := b :: l2). cbv zeta.
  set (S1 := list_to_set L1 : gset string). set (S2 := list_to_set L2 : gset string).
  assert (Hin1 : forall x, x ∈ S1 <-> In x L1).
  { intros x. unfold S1. now rewrite elem_of_list_to_set, list_elem_of_In. }
  assert (Hin2 : forall x, x ∈ S2 <-> In x L2).
  { intros x. unfold S2. now rewrite elem_of_list_to_set, list_elem_of_In. }
  assert (Hsub : S1 ∩ S2 ⊆ S1 ∪ S2).
  { intros x Hx. apply elem_of_intersection in Hx as [Hx _]. now apply elem_of_union_l. }
  assert (Hle : size (S1 ∩ S2) <= size (S1 ∪ S2)) by now apply subseteq_size.
  assert (Hpos : 0 < size (S1 ∪ S2)).
  { assert (size (S1 ∪ S2) <> 0); [|lia].
    apply size_non_empty_iff. intros He.
    assert (Ha : a ∈ S1 ∪ S2) by (apply elem_of_union_l, Hin1; now left).
    rewrite He in Ha. now apply not_elem_of_empty in Ha. }
  destruct (ratio_range _ _ Hle Hpos) as [Hr [H1 H0]].
  assert (Hb : (0 <? size (S1 ∪ S2))%nat = true) by now apply Nat.ltb_lt.
  split; [|split; [|split]].
  - assert (Hi : S2 ∩ S1 = S1 ∩ S2).
    { apply leibniz_equiv, set_equiv. intros x. rewrite !elem_of_intersection. tauto. }
    assert (Hu : S2 ∪ S1 = S1 ∪ S2).
    { apply leibniz_equiv, set_equiv. intros x. rewrite !elem_of_union. tauto. }
    now rewrite Hi, Hu.
  - rewrite Hb. exact Hr.
  - rewrite Hb, H0. split.
    + intros Hz. right. right. intros x Hx1 Hx2.
      apply size_empty_iff in Hz. apply (not_elem_of_empty (C := gset string) x).
      rewrite <- Hz. apply elem_of_intersection. split; [now apply Hin1 | now apply Hin2].
    + intros [H|[H|H]]; try discriminate.
      apply size_empty_iff. apply elem_of_equiv_empty. intros x Hx.
      apply elem_of_intersection in Hx as [Hx1 Hx2].
      apply (H x); [now apply Hin1 | now apply Hin2].
  - rewrite Hb, H1. split.
    + intros Hs. split; [discriminate|].
      assert (Heq : S1 ∩ S2 = S1 ∪ S2).
      { apply set_subseteq_size_eq; [exact Hsub | lia]. }
      intros x. rewrite <- Hin1, <- Hin2. split; intros Hx.
      * assert (Hu : x ∈ S1 ∪ S2) by now apply elem_of_union_l.
        rewrite <- Heq in Hu. now apply elem_of_intersection in Hu as [_ Hu].
      * assert (Hu : x ∈ S1 ∪ S2) by now apply elem_of_union_r.
        rewrite <- Heq in Hu. now apply elem_of_intersection in Hu as [Hu _].
    + intros [_ H]. f_equal. apply leibniz_equiv. apply set_equiv. intros x.
      rewrite elem_of_intersection, elem_of_union, !Hin1, !Hin2, (H x). tauto.
Qed.

(** ** Loading the data files *)

Lemma jdict_set_keeps_key (d : list (string * json)) (k k' : string) (v : json) :
  jdict_has d k' = true -> jdict_has (jdict_set d k v) k' = true.
Proof.
  unfold jdict_has. induction d as [|[k0 v0] d IH]; simpl; [discriminate|].
  destruct (String.eqb k k0) eqn:E; simpl.
  - destruct (String.eqb k' k0); [reflexivity | tauto].
  - destruct (String.eqb k' k0); [reflexivity | exact IH].
Qed.

Lemma with_goal_is_template (key : string) (value t : json) :
  with_goal key value = Some t -> is_template t = true.
Proof.
  destruct value; try discriminate. simpl. intros [= <-]. simpl.
  assert (H : jdict_has [("goal", JStr key)] "goal" = true) by reflexivity.
  revert H. generalize [("goal", JStr key)]. induction d as [|kv d IH]; intros acc H.
  - exact H.
  - simpl. apply IH. now apply jdict_set_keeps_key.
Qed.

Lemma goal_comprehension_templates : forall items ts,
  goal_comprehension items = Some ts ->
  length ts = length items /\ forall t, In t ts -> is_template t = true.
Proof.
  induction items as [|[key value] items IH]; intros ts; simpl.
  - intros [= <-]. split; [reflexivity | intros t []].
  - destruct (with_goal key value) as [t0|] eqn:Hw; [|discriminate].
    destruct (goal_comprehension items) as [ts0|]; [|discriminate].
    intros [= <-]. destruct (IH ts0 eq_refl) as [Hl Ht]. split; [simpl; now rewrite Hl|].
    intros t [<-|H]; [exact (with_goal_is_template _ _ _ Hw) | now apply Ht].
Qed.

(** Whatever the templates file holds, and when it cannot be read, the
    repository the engine starts with is not empty and each of its
    entries is a dictionary that has a goal. *)
Theorem load_templates_repository (loaded : option json) :
  _load_templates loaded <> []
  /\ forall t, In t (_load_templates loaded) ->
       exists items, t = JDict items /\ jdict_has items "goal" = true.
Proof.
  assert (Hshape : forall t, is_template t = true ->
            exists items, t = JDict items /\ jdict_has items "goal" = true).
  { intros t Ht. destruct t; try discriminate. now eexists. }
  assert (Hdef : default_templates_json <> []
                 /\ forall t, In t default_templates_json -> is_template t = true).
  { split; [discriminate|]. intros t [<-|[]]. reflexivity. }
  assert (H : _load_templates loaded <> []
              /\ forall t, In t (_load_templates loaded) -> is_template t = true).
  { unfold _load_templates. destruct loaded as [data|]; [|exact Hdef].
    destruct (negb (json_truthy data)) eqn:Htruthy; [exact Hdef|].
    destruct data as [| | | |items|items]; try exact Hdef.
    - destruct (List.filter is_template items) as [|t ts] eqn:Hf; [exact Hdef|].
      split; [discriminate|]. intros x Hx. rewrite <- Hf in Hx.
      now apply filter_In in Hx as [_ Hx].
    - destruct (jdict_has items "goal") eqn:Hg.
      + split; [discriminate|]. intros t [<-|[]]. exact Hg.
      + destruct (goal_comprehension items) as [ts|] eqn:Hc; [|exact Hdef].
        destruct (goal_comprehension_templates items ts Hc) as [Hl Ht].
        split; [|exact Ht]. destruct items; [discriminate|].
        destruct ts; [discriminate Hl | discriminate]. }
  destruct H as [H1 H2]. split; [exact H1|]. intros t Ht. apply Hshape. now apply H2.
Qed.

(** The catalog the engine starts with is empty in one case only: the
    exercises file holds a dictionary whose [workouts] is the empty
    list.  Empty files, unreadable files and empty lists all give the
    built-in catalog. *)
Theorem load_exercises_empty (loaded : option json) :
  _load_exercises loaded = [] <->
  exists items, loaded = Some (JDict items) /\ jdict_get items "workouts" = Some (JList []).
Proof.
  unfold _load_exercises. split.
  - destruct loaded as [data|]; [|discriminate].
    destruct (negb (json_truthy data)) eqn:Ht; [discriminate|].
    destruct data as [| | | |l|items]; try discriminate.
    + intros ->. discriminate.
    + destruct (jdict_get items "workouts") as [w|] eqn:Hw; [|discriminate].
      destruct w; try discriminate. intros ->. now exists items.
  - intros [items [-> Hw]]. rewrite Hw.
    destruct items; [discriminate|]. reflexivity.
Qed.
